(** * mod_csrfprotector (Apache 2.2): a shallow embedding of
      [src/apache 2.2/src/mod_csrfprotector.c] and the properties of its
      token lifecycle and request-validation pipeline.

    C strings are [string]s (the bytes before the terminator), C [int]s are
    [Z], a pointer that may be NULL is an [option], and every operation the
    C code performs without a guard (dereferencing NULL, reading an
    uninitialised pointer, indexing past a literal, an impossible
    allocation) is an explicit [Fault] of the [result] type. *)

From Stdlib Require Import ZArith NArith List String Ascii Bool Lia.
Import ListNotations.

Local Open Scope Z_scope.
Local Open Scope string_scope.

(* ================================================================== *)
(** ** Faults and the error monad *)
(* ================================================================== *)

Inductive fault : Type :=
| NullDeref      (* a NULL pointer handed to strlen / strcmp / apr_table_get *)
| UninitRead     (* a pointer read before anything was stored in it *)
| OutOfBounds    (* an index past the end of an array *)
| AllocFailure.  (* apr_pcalloc asked for (size_t) of a negative int *)

Inductive result (A : Type) : Type :=
| Ok (a : A)
| Fault (f : fault).

Arguments Ok {A} a.
Arguments Fault {A} f.

Definition bind {A B : Type} (m : result A) (k : A -> result B) : result B :=
  match m with
  | Ok a => k a
  | Fault f => Fault f
  end.

Notation "x <- m ;; k" := (bind m (fun x => k))
  (at level 61, m at next level, right associativity).

Definition returned {A : Type} (m : result A) : bool :=
  match m with Ok _ => true | Fault _ => false end.

(* ================================================================== *)
(** ** The C library functions the module calls *)
(* ================================================================== *)

Module CLib.

Definition NUL : ascii := "000"%char.

Definition code (c : ascii) : Z := Z.of_nat (nat_of_ascii c).

Definition strlen (s : string) : Z := Z.of_nat (String.length s).

(** [strcmp]: zero exactly when the two strings are equal, otherwise the
    difference of the first pair of bytes that differ. *)
Fixpoint strcmp (a b : string) : Z :=
  match a, b with
  | EmptyString, EmptyString => 0
  | EmptyString, String y _ => 0 - code y
  | String x _, EmptyString => code x
  | String x a', String y b' =>
      if Ascii.eqb x y then strcmp a' b' else code x - code y
  end.

Definition tolower (c : ascii) : ascii :=
  let n := nat_of_ascii c in
  if (Nat.leb 65 n && Nat.leb n 90)%bool then ascii_of_nat (n + 32) else c.

Fixpoint strcasecmp (a b : string) : Z :=
  match a, b with
  | EmptyString, EmptyString => 0
  | EmptyString, String y _ => 0 - code (tolower y)
  | String x _, EmptyString => code (tolower x)
  | String x a', String y b' =>
      if Ascii.eqb (tolower x) (tolower y) then strcasecmp a' b'
      else code (tolower x) - code (tolower y)
  end.

(** [strstr h n]: the suffix of [h] that starts at the first occurrence
    of [n], or NULL. *)
Fixpoint strstr (h n : string) : option string :=
  if String.prefix n h then Some h
  else match h with
       | EmptyString => None
       | String _ t => strstr t n
       end.

(** [p + k] on a [char *]. *)
Fixpoint advance (k : nat) (p : string) : string :=
  match k, p with
  | O, _ => p
  | S k', String _ t => advance k' t
  | S _, EmptyString => EmptyString
  end.

(** [strncpy(dst, src, n)] into a block of exactly [n] cleared bytes:
    the bytes the block holds afterwards, up to its first NUL.  When
    [src] has [n] bytes or more, the block holds no terminator. *)
Fixpoint strncpy (src : string) (n : nat) : string :=
  match n, src with
  | O, _ => EmptyString
  | S _, EmptyString => EmptyString
  | S n', String c t => String c (strncpy t n')
  end.

Definition isspace (c : ascii) : bool :=
  let n := nat_of_ascii c in
  (Nat.eqb n 32 || (Nat.leb 9 n && Nat.leb n 13))%bool.

Definition isdigit (c : ascii) : bool :=
  let n := nat_of_ascii c in (Nat.leb 48 n && Nat.leb n 57)%bool.

Fixpoint skip_spaces (s : string) : string :=
  match s with
  | String c t => if isspace c then skip_spaces t else s
  | EmptyString => s
  end.

Fixpoint digits (s : string) (acc : Z) : Z :=
  match s with
  | String c t => if isdigit c then digits t (acc * 10 + (code c - 48)) else acc
  | EmptyString => acc
  end.

(** [strtol] keeps its result within a 64-bit [long]. *)
Definition to_long (z : Z) : Z := Z.max (- 2 ^ 63) (Z.min (2 ^ 63 - 1) z).

(** Conversion of a C [long] to [int]: the low 32 bits, signed. *)
Definition to_int (z : Z) : Z := (z + 2 ^ 31) mod 2 ^ 32 - 2 ^ 31.

(** [atoi], that is [(int) strtol(s, NULL, 10)]: blanks, an optional sign,
    then decimal digits; zero when no digit is there. *)
Definition atoi (s : string) : Z :=
  let s' := skip_spaces s in
  to_int (to_long match s' with
                  | String "-"%char t => - digits t 0
                  | String "+"%char t => digits t 0
                  | _ => digits s' 0
                  end).

(** The C string seen through a pointer: the bytes before the first NUL. *)
Fixpoint c_str (s : string) : string :=
  match s with
  | EmptyString => EmptyString
  | String c t => if Ascii.eqb c NUL then EmptyString else String c (c_str t)
  end.

End CLib.

(* ================================================================== *)
(** ** APR tables: ordered, duplicate keys allowed, keys compared without
       regard to case *)
(* ================================================================== *)

Module Apr.

Definition apr_table_t : Type := list (string * string).

Definition key_eqb (k k' : string) : bool := Z.eqb (CLib.strcasecmp k k') 0.

Definition apr_table_make : apr_table_t := [].

Fixpoint apr_table_get (t : apr_table_t) (key : string) : option string :=
  match t with
  | [] => None
  | (k, v) :: t' => if key_eqb k key then Some v else apr_table_get t' key
  end.

Definition apr_table_addn (t : apr_table_t) (key val : string) : apr_table_t :=
  (t ++ [(key, val)])%list.

Definition apr_table_add := apr_table_addn.

(** [apr_table_setn]: the first entry under the key takes the new value
    and every later entry under it is removed; a new key is appended. *)
Fixpoint apr_table_setn (t : apr_table_t) (key val : string) : apr_table_t :=
  match t with
  | [] => [(key, val)]
  | (k, v) :: t' =>
      if key_eqb k key
      then (k, val) :: filter (fun kv => negb (key_eqb (fst kv) key)) t'
      else (k, v) :: apr_table_setn t' key val
  end.

End Apr.

(* ================================================================== *)
(** ** The part of httpd the module sees *)
(* ================================================================== *)

Module Httpd.

Import CLib Apr.

Definition OK : Z := 0.
Definition DECLINED : Z := -1.
Definition DONE : Z := -2.
Definition HTTP_FORBIDDEN : Z := 403.
Definition HTTP_INTERNAL_SERVER_ERROR : Z := 500.
Definition M_GET : Z := 0.
Definition M_POST : Z := 2.
Definition APR_SUCCESS : Z := 0.

(** A bucket brigade: the data of its buckets, in order. *)
Definition apr_bucket_brigade : Type := list string.

(** [request_rec], with the fields the module reads or writes.
    - [setup_client_block] is what [ap_setup_client_block] returns and
      [client_block] the request body, [None] when
      [ap_should_client_block] says there is none;
    - [pool_residue] are the bytes that follow a block freshly cut from
      [r->pool], up to the first NUL: [apr_pcalloc] clears the bytes asked
      for and no more, so a block filled to its last byte is read as a C
      string together with them;
    - [rprintf_out] is the text written with [ap_rprintf]. *)
Record request_rec : Type := {
  method : string;
  method_number : Z;
  args : option string;
  content_type : option string;
  headers_in : apr_table_t;
  headers_out : apr_table_t;
  err_headers_out : apr_table_t;
  subprocess_env : apr_table_t;
  output_filters : list string;
  setup_client_block : Z;
  client_block : option string;
  pool_residue : string;
  rprintf_out : string
}.

Definition set_headers_out (r : request_rec) (t : apr_table_t) : request_rec :=
  {| method := method r; method_number := method_number r; args := args r;
     content_type := content_type r; headers_in := headers_in r;
     headers_out := t; err_headers_out := err_headers_out r;
     subprocess_env := subprocess_env r; output_filters := output_filters r;
     setup_client_block := setup_client_block r; client_block := client_block r;
     pool_residue := pool_residue r; rprintf_out := rprintf_out r |}.

Definition set_subprocess_env (r : request_rec) (t : apr_table_t) : request_rec :=
  {| method := method r; method_number := method_number r; args := args r;
     content_type := content_type r; headers_in := headers_in r;
     headers_out := headers_out r; err_headers_out := err_headers_out r;
     subprocess_env := t; output_filters := output_filters r;
     setup_client_block := setup_client_block r; client_block := client_block r;
     pool_residue := pool_residue r; rprintf_out := rprintf_out r |}.

Definition ap_add_output_filter (name : string) (r : request_rec) : request_rec :=
  {| method := method r; method_number := method_number r; args := args r;
     content_type := content_type r; headers_in := headers_in r;
     headers_out := headers_out r; err_headers_out := err_headers_out r;
     subprocess_env := subprocess_env r;
     output_filters := (output_filters r ++ [name])%list;
     setup_client_block := setup_client_block r; client_block := client_block r;
     pool_residue := pool_residue r; rprintf_out := rprintf_out r |}.

Definition ap_rputs (text : string) (r : request_rec) : request_rec :=
  {| method := method r; method_number := method_number r; args := args r;
     content_type := content_type r; headers_in := headers_in r;
     headers_out := headers_out r; err_headers_out := err_headers_out r;
     subprocess_env := subprocess_env r; output_filters := output_filters r;
     setup_client_block := setup_client_block r; client_block := client_block r;
     pool_residue := pool_residue r; rprintf_out := rprintf_out r ++ text |}.

(** The ["%s"] conversion of [apr_vformatter]: a NULL argument prints as
    ["(null)"]. *)
Definition fmt_s (s : option string) : string :=
  match s with Some s' => s' | None => "(null)" end.

Fixpoint skip_stops (stop : ascii) (s : string) : string :=
  match s with
  | String c t => if Ascii.eqb c stop then skip_stops stop t else s
  | EmptyString => s
  end.

(** [ap_getword(pool, &line, stop)]: the word before the first [stop],
    and [line] moved past the run of [stop]s that ends it. *)
Fixpoint ap_getword (line : string) (stop : ascii) : string * string :=
  match line with
  | EmptyString => (EmptyString, EmptyString)
  | String c t =>
      if Ascii.eqb c stop then (EmptyString, skip_stops stop line)
      else let (w, rest) := ap_getword t stop in (String c w, rest)
  end.

Definition ap_getword_nc := ap_getword.

Definition isxdigit (c : ascii) : bool :=
  let n := nat_of_ascii c in
  (isdigit c || (Nat.leb 65 n && Nat.leb n 70) || (Nat.leb 97 n && Nat.leb n 102))%bool.

Definition hexval (c : ascii) : nat :=
  let n := nat_of_ascii c in
  if Nat.leb 65 n then (if Nat.leb 97 n then n - 32 else n) - 65 + 10 else n - 48.

Definition x2c (h1 h2 : ascii) : ascii := ascii_of_nat (hexval h1 * 16 + hexval h2).

Fixpoint unescape_bytes (y : string) : string :=
  match y with
  | EmptyString => EmptyString
  | String c t =>
      if Ascii.eqb c "%" then
        match t with
        | String h1 (String h2 t2) =>
            if (isxdigit h1 && isxdigit h2)%bool
            then String (x2c h1 h2) (unescape_bytes t2)
            else String "%" (unescape_bytes t)
        | _ => String "%" (unescape_bytes t)
        end
      else String c (unescape_bytes t)
  end.

(** [ap_unescape_url], in place: ["%XX"] becomes the byte, a ['%'] that
    two hex digits do not follow stays, and a decoded NUL ends the
    string.  The module ignores its return code. *)
Definition ap_unescape_url (url : string) : string := c_str (unescape_bytes url).

End Httpd.

(* ================================================================== *)
(** ** mod_csrfprotector.c *)
(* ================================================================== *)

Module Csrfp.

Import CLib Apr Httpd.

Definition CSRFP_TOKEN : string := "csrfp_token".
Definition DEFAULT_POST_ENCTYPE : string := "application/x-www-form-urlencoded".
Definition REGEN_TOKEN : string := "true".

Definition CSRFP_URI_MAXLENGTH : nat := 200.
Definition CSRFP_ERROR_MESSAGE_MAXLENGTH : nat := 200.
Definition CSRFP_DISABLED_JS_MESSAGE_MAXLENGTH : nat := 400.

Definition DEFAULT_ACTION : Z := 0.
Definition DEFAULT_TOKEN_LENGTH : Z := 15.
Definition DEFAULT_ERROR_MESSAGE : string :=
  "<h2>ACCESS FORBIDDEN BY OWASP CSRF_PROTECTOR!</h2>".
Definition DEFAULT_REDIRECT_URL : string := "".
Definition DEFAULT_JS_FILE_PATH : string :=
  "http://localhost/csrfp_js/csrfprotector.js".
Definition DEFAULT_DISABLED_JS_MESSSAGE : string :=
  "This site attempts to protect users against"
  ++ " <a href=" ++ String (ascii_of_nat 34) "https://www.owasp.org/index.php/Cross-Site_Request_Forgery_%28CSRF%29"
  ++ String (ascii_of_nat 34) ">"
  ++ " Cross-Site Request Forgeries </a> attacks. In order to do so, you must have JavaScript "
  ++ " enabled in your web browser otherwise this site will fail to work correctly for you. "
  ++ " See details of your web browser for how to enable JavaScript.".

Definition CSRFP_ACTION_FORBIDDEN : Z := 0.
Definition CSRFP_ACTION_STRIP : Z := 1.
Definition CSRFP_ACTION_REDIRECT : Z := 2.
Definition CSRFP_ACTION_MESSAGE : Z := 3.
Definition CSRFP_ACTION_INTERNAL_SERVER_ERROR : Z := 4.

(** A compiled pattern.  The module never builds one. *)
Record ap_regex_t : Type := { re_source : string }.

Record csrfp_config : Type := {
  flag : Z;
  action : Z;
  errorRedirectionUri : option string;
  errorCustomMessage : option string;
  jsFilePath : string;
  tokenLength : Z;
  disablesJsMessage : string;
  verifyGetFor : option ap_regex_t
}.

(* ---------------------------------------------------------------- *)
(** *** Request body and query string *)

(** [util_read]: the return code, and what [*rbuf] points to afterwards;
    [None] when nothing was stored in it. *)
Definition util_read (r : request_rec) : Z * option string :=
  if negb (setup_client_block r =? OK)%Z then (setup_client_block r, None)
  else match client_block r with
       | Some body => (OK, Some (c_str body))
       | None => (OK, None)
       end.

Fixpoint read_post_loop (fuel : nat) (data : string) (tbl : apr_table_t)
  : apr_table_t :=
  match fuel with
  | O => tbl
  | S fuel' =>
      match data with
      | EmptyString => tbl
      | _ =>
          let (val0, data') := ap_getword data "&" in
          let (key, val) := ap_getword val0 "=" in
          read_post_loop fuel' data'
            (apr_table_setn tbl (ap_unescape_url key) (ap_unescape_url val))
      end
  end.

Definition read_post (r : request_rec) : result (option apr_table_t) :=
  if negb (method_number r =? M_POST)%Z then Ok None
  else
    match apr_table_get (headers_in r) "Content-Type" with
    | None => Fault NullDeref                      (* strcasecmp(NULL, ...) *)
    | Some type =>
        if negb (strcasecmp type DEFAULT_POST_ENCTYPE =? 0)%Z then Ok None
        else
          let (rc, data) := util_read r in
          if negb (rc =? OK)%Z then Ok None
          else match data with
               | None => Fault UninitRead          (* *data, data never set *)
               | Some d =>
                   Ok (Some (read_post_loop (String.length d) d apr_table_make))
               end
    end.

Fixpoint csrf_get_query_loop (fuel : nat) (args : string) (tbl : apr_table_t)
  : apr_table_t :=
  match fuel with
  | O => tbl
  | S fuel' =>
      match args with
      | EmptyString => tbl
      | _ =>
          let (value0, args') := ap_getword args "&" in
          let (name, value) := ap_getword_nc value0 "=" in
          csrf_get_query_loop fuel' args' (apr_table_addn tbl name value)
      end
  end.

Definition csrf_get_query (r : request_rec) : option apr_table_t :=
  match args r with
  | None => None
  | Some a => Some (csrf_get_query_loop (String.length a) a apr_table_make)
  end.

(* ---------------------------------------------------------------- *)
(** *** Token generation *)

Definition stringset : string :=
  "ABCDEFGHIJKLMNOPQRSTWXYZabcdefghijklmnopqrstuvwxyz0123456789".

(** [stringset[i]]: a character of the literal, its terminator at
    [strlen(stringset)], nothing beyond. *)
Definition stringset_at (i : Z) : result ascii :=
  if (i <? 0)%Z then Fault OutOfBounds
  else match String.get (Z.to_nat i) stringset with
       | Some c => Ok c
       | None => if (i =? strlen stringset)%Z then Ok NUL else Fault OutOfBounds
       end.

(** The body of the [for] loop, [n] iterations from index [i]; [rand i] is
    what the [i]-th call of [rand()] returns. *)
Fixpoint generateToken_loop (rand : nat -> N) (n i : nat) : result string :=
  match n with
  | O => Ok EmptyString
  | S n' =>
      let rno := Z.rem (Z.of_N (rand i)) 123 + 1 in
      c <- (if (rno <? 62)%Z then stringset_at rno else stringset_at (rno - 62)) ;;
      rest <- generateToken_loop rand n' (S i) ;;
      Ok (String c rest)
  end.

(** [generateToken]: the [length] bytes of the block it returns. *)
Definition generateToken (rand : nat -> N) (length : Z) : result string :=
  if (length <? 0)%Z then Fault AllocFailure
  else generateToken_loop rand (Z.to_nat length) 0.

(* ---------------------------------------------------------------- *)
(** *** The cookie *)

Definition setTokenCookie (r : request_rec) : Z := 0.

(** The [for] loop of [getCookieToken]: [pos] counts the bytes of [p]
    before the first [';']. *)
Fixpoint cookie_scan (p : string) (pos : Z) : Z :=
  match p with
  | EmptyString => pos
  | String c t => if Ascii.eqb c ";" then pos else cookie_scan t (pos + 1)
  end.

(** [getCookieToken]: NULL without a Cookie header, otherwise the [len]
    bytes of the block [tok]. *)
Definition getCookieToken (r : request_rec) : result (option string) :=
  match apr_table_get (headers_in r) "Cookie" with
  | None => Ok None
  | Some cookie =>
      match strstr cookie CSRFP_TOKEN with
      | None => Fault NullDeref                    (* strlen(NULL) *)
      | Some p =>
          let pos := cookie_scan p 0 in
          let len := pos - strlen CSRFP_TOKEN - 1 in
          if (len <? 0)%Z then Fault AllocFailure
          else Ok (Some (strncpy (advance (String.length CSRFP_TOKEN + 1) p)
                                 (Z.to_nat len)))
      end
  end.

(** The C string read at a block that was filled to its last byte. *)
Definition read_block (r : request_rec) (block : string) : string :=
  block ++ pool_residue r.

(* ---------------------------------------------------------------- *)
(** *** Validation *)

Definition validatePOSTtoken (r : request_rec) : result Z :=
  POST <- read_post r ;;
  match POST with
  | None => Fault NullDeref                        (* apr_table_get(NULL, ...) *)
  | Some tbl =>
      match apr_table_get tbl CSRFP_TOKEN with
      | None => Ok 0
      | Some tokenValue =>
          tok <- getCookieToken r ;;
          match tok with
          | None => Fault NullDeref                (* strcmp(tokenValue, NULL) *)
          | Some block =>
              if (strcmp tokenValue (read_block r block) =? 0)%Z then Ok 1 else Ok 0
          end
      end
  end.

Definition validateGETTtoken (r : request_rec) : result Z :=
  match csrf_get_query r with
  | None => Ok 0
  | Some GET =>
      match apr_table_get GET CSRFP_TOKEN with
      | None => Ok 0
      | Some tokenValue =>
          tok <- getCookieToken r ;;
          match tok with
          | None => Fault NullDeref
          | Some block =>
              if (strcmp tokenValue (read_block r block) =? 0)%Z then Ok 1 else Ok 0
          end
      end
  end.

Definition getOutputContentType (r : request_rec) : option string :=
  match apr_table_get (headers_out r) "Content-Type" with
  | Some t => Some t
  | None =>
      match apr_table_get (err_headers_out r) "Content-Type" with
      | Some t => Some t
      | None => content_type r
      end
  end.

(* ---------------------------------------------------------------- *)
(** *** Hooks *)

Definition failedValidationAction (conf : csrfp_config) (r : request_rec)
  : Z * request_rec :=
  if (action conf =? CSRFP_ACTION_FORBIDDEN)%Z then (HTTP_FORBIDDEN, r)
  else if (action conf =? CSRFP_ACTION_STRIP)%Z then (OK, r)
  else if (action conf =? CSRFP_ACTION_REDIRECT)%Z then (DONE, r)
  else if (action conf =? CSRFP_ACTION_MESSAGE)%Z then
    (DONE, ap_rputs ("<h2>" ++ fmt_s (errorCustomMessage conf) ++ "</h2>") r)
  else if (action conf =? CSRFP_ACTION_INTERNAL_SERVER_ERROR)%Z then
    (HTTP_INTERNAL_SERVER_ERROR, r)
  else (HTTP_FORBIDDEN, r).

(** The tail of [csrfp_header_parser], reached when no failed validation
    returned before. *)
Definition mark_for_regeneration (r : request_rec) : request_rec :=
  let r1 := set_subprocess_env r
              (apr_table_add (subprocess_env r) "regenToken" REGEN_TOKEN) in
  set_headers_out r1 (apr_table_addn (headers_out r1) "X-Protected-By" "CSRFP 0.0.1").

Definition csrfp_header_parser (conf : csrfp_config) (r : request_rec)
  : result (Z * request_rec) :=
  if (flag conf =? 0)%Z then Ok (OK, r)
  else
    let r1 := ap_add_output_filter "csrfp_out_filter" r in
    failed <- (if (strcmp (method r1) "POST" =? 0)%Z
               then v <- validatePOSTtoken r1 ;; Ok (v =? 0)%Z
               else Ok false) ;;
    if failed then Ok (failedValidationAction conf r1)
    else
      let r2 := if (strcmp (method r1) "GET" =? 0)%Z then r1 (* #todo *) else r1 in
      Ok (OK, mark_for_regeneration r2).

(** [csrfp_out_filter]: the request afterwards and the brigade handed to
    [f->next]. *)
Definition csrfp_out_filter (r : request_rec) (bb : apr_bucket_brigade)
  : request_rec * apr_bucket_brigade :=
  let r1 := set_headers_out r (apr_table_addn (headers_out r) "output_filter" "called") in
  let regenToken := apr_table_get (subprocess_env r1) "regenToken" in
  let r2 := match regenToken with
            | Some v => if (strcasecmp v REGEN_TOKEN =? 0)%Z then r1 else r1
            | None => r1
            end in
  (ap_rputs "<br>output filter" r2, bb).


(* ---------------------------------------------------------------- *)
(** *** Configuration *)

Definition csrfp_srv_config_create : csrfp_config :=
  {| flag := 1;
     action := DEFAULT_ACTION;
     errorRedirectionUri := Some (strncpy DEFAULT_REDIRECT_URL CSRFP_URI_MAXLENGTH);
     errorCustomMessage :=
       Some (strncpy DEFAULT_ERROR_MESSAGE CSRFP_ERROR_MESSAGE_MAXLENGTH);
     jsFilePath := strncpy DEFAULT_JS_FILE_PATH CSRFP_URI_MAXLENGTH;
     tokenLength := DEFAULT_TOKEN_LENGTH;
     disablesJsMessage :=
       strncpy DEFAULT_DISABLED_JS_MESSSAGE CSRFP_DISABLED_JS_MESSAGE_MAXLENGTH;
     verifyGetFor := None |}.

Definition set_flag (config : csrfp_config) (v : Z) : csrfp_config :=
  {| flag := v; action := action config;
     errorRedirectionUri := errorRedirectionUri config;
     errorCustomMessage := errorCustomMessage config;
     jsFilePath := jsFilePath config; tokenLength := tokenLength config;
     disablesJsMessage := disablesJsMessage config;
     verifyGetFor := verifyGetFor config |}.

Definition set_action (config : csrfp_config) (v : Z) : csrfp_config :=
  {| flag := flag config; action := v;
     errorRedirectionUri := errorRedirectionUri config;
     errorCustomMessage := errorCustomMessage config;
     jsFilePath := jsFilePath config; tokenLength := tokenLength config;
     disablesJsMessage := disablesJsMessage config;
     verifyGetFor := verifyGetFor config |}.

Definition set_errorRedirectionUri (config : csrfp_config) (v : option string)
  : csrfp_config :=
  {| flag := flag config; action := action config;
     errorRedirectionUri := v;
     errorCustomMessage := errorCustomMessage config;
     jsFilePath := jsFilePath config; tokenLength := tokenLength config;
     disablesJsMessage := disablesJsMessage config;
     verifyGetFor := verifyGetFor config |}.

Definition set_errorCustomMessage (config : csrfp_config) (v : option string)
  : csrfp_config :=
  {| flag := flag config; action := action config;
     errorRedirectionUri := errorRedirectionUri config;
     errorCustomMessage := v;
     jsFilePath := jsFilePath config; tokenLength := tokenLength config;
     disablesJsMessage := disablesJsMessage config;
     verifyGetFor := verifyGetFor config |}.

Definition set_tokenLength (config : csrfp_config) (v : Z) : csrfp_config :=
  {| flag := flag config; action := action config;
     errorRedirectionUri := errorRedirectionUri config;
     errorCustomMessage := errorCustomMessage config;
     jsFilePath := jsFilePath config; tokenLength := v;
     disablesJsMessage := disablesJsMessage config;
     verifyGetFor := verifyGetFor config |}.

Definition set_verifyGetFor (config : csrfp_config) (v : option ap_regex_t)
  : csrfp_config :=
  {| flag := flag config; action := action config;
     errorRedirectionUri := errorRedirectionUri config;
     errorCustomMessage := errorCustomMessage config;
     jsFilePath := jsFilePath config; tokenLength := tokenLength config;
     disablesJsMessage := disablesJsMessage config;
     verifyGetFor := v |}.

(** A directive handler returns NULL, or the error message that stops
    the configuration from loading, and leaves the global [config]
    as the second component says. *)
Definition cmd_result : Type := option string * csrfp_config.

Definition csrfp_enable_cmd (config : csrfp_config) (arg : string) : cmd_result :=
  if (strcasecmp arg "off" =? 0)%Z then (None, set_flag config 0)
  else (None, set_flag config 1).

Definition csrfp_action_cmd (config : csrfp_config) (arg : string) : cmd_result :=
  if (strcasecmp arg "forbidden" =? 0)%Z then
    (None, set_action config CSRFP_ACTION_FORBIDDEN)
  else if (strcasecmp arg "strip" =? 0)%Z then
    (None, set_action config CSRFP_ACTION_STRIP)
  else if (strcasecmp arg "redirect" =? 0)%Z then
    (None, set_action config CSRFP_ACTION_REDIRECT)
  else if (strcasecmp arg "message" =? 0)%Z then
    (None, set_action config CSRFP_ACTION_MESSAGE)
  else if (strcasecmp arg "internal_server_error" =? 0)%Z then
    (None, set_action config CSRFP_ACTION_INTERNAL_SERVER_ERROR)
  else (None, set_action config CSRFP_ACTION_FORBIDDEN).

Definition csrfp_errorRedirectionUri_cmd (config : csrfp_config) (arg : string)
  : result cmd_result :=
  if (strlen arg >? 0)%Z then
    match errorRedirectionUri config with
    | None => Fault NullDeref                      (* strncpy(NULL, ...) *)
    | Some _ =>
        Ok (None, set_errorRedirectionUri config
                    (Some (strncpy arg CSRFP_URI_MAXLENGTH)))
    end
  else Ok (None, set_errorRedirectionUri config None).

Definition csrfp_errorCustomMessage_cmd (config : csrfp_config) (arg : string)
  : result cmd_result :=
  if (strlen arg >? 0)%Z then
    match errorCustomMessage config with
    | None => Fault NullDeref
    | Some _ =>
        Ok (None, set_errorCustomMessage config
                    (Some (strncpy arg CSRFP_ERROR_MESSAGE_MAXLENGTH)))
    end
  else Ok (None, set_errorCustomMessage config None).

Definition set_jsFilePath (config : csrfp_config) (v : string) : csrfp_config :=
  {| flag := flag config; action := action config;
     errorRedirectionUri := errorRedirectionUri config;
     errorCustomMessage := errorCustomMessage config;
     jsFilePath := v; tokenLength := tokenLength config;
     disablesJsMessage := disablesJsMessage config;
     verifyGetFor := verifyGetFor config |}.

Definition set_disablesJsMessage (config : csrfp_config) (v : string) : csrfp_config :=
  {| flag := flag config; action := action config;
     errorRedirectionUri := errorRedirectionUri config;
     errorCustomMessage := errorCustomMessage config;
     jsFilePath := jsFilePath config; tokenLength := tokenLength config;
     disablesJsMessage := v;
     verifyGetFor := verifyGetFor config |}.

Definition csrfp_jsFilePath_cmd (config : csrfp_config) (arg : string) : cmd_result :=
  if (strlen arg >? 0)%Z
  then (None, set_jsFilePath config (strncpy arg CSRFP_URI_MAXLENGTH))
  else (None, config).

Definition csrfp_disablesJsMessage_cmd (config : csrfp_config) (arg : string)
  : cmd_result :=
  if (strlen arg >? 0)%Z
  then (None, set_disablesJsMessage config
                (strncpy arg CSRFP_DISABLED_JS_MESSAGE_MAXLENGTH))
  else (None, config).

Definition csrfp_tokenLength_cmd (config : csrfp_config) (arg : string) : cmd_result :=
  if (strlen arg >? 0)%Z then
    let length := atoi arg in
    if negb (length =? 0)%Z then (None, set_tokenLength config length)
    else (None, config)
  else (None, config).

Definition csrfp_verifyGetFor_cmd (config : csrfp_config) (arg : string) : cmd_result :=
  (None, set_verifyGetFor config None).

(* ---------------------------------------------------------------- *)
(** *** One request through the two hooks

    What httpd does with the hooks [csrfp_register_hooks] installs: the
    header parser runs first; when it returns [OK] the content generator
    produces [content], which goes through [csrfp_out_filter] if
    [ap_add_output_filter] put it on the request.  Any other return
    code ends the request there, with no content of the application;
    what httpd itself sends and runs after such a code (error document,
    finalisation of the response) is outside this definition. *)

Record response : Type := {
  status : Z;
  req : request_rec;
  body : apr_bucket_brigade
}.

Definition has_filter (name : string) (r : request_rec) : bool :=
  existsb (String.eqb name) (output_filters r).

Definition serve (conf : csrfp_config) (r : request_rec)
                 (content : apr_bucket_brigade) : result response :=
  hp <- csrfp_header_parser conf r ;;
  let (rc, r1) := hp : Z * request_rec in
  if (rc =? OK)%Z then
    if has_filter "csrfp_out_filter" r1 then
      let (r2, bb) := csrfp_out_filter r1 content in
      Ok {| status := OK; req := r2; body := bb |}
    else Ok {| status := OK; req := r1; body := content |}
  else Ok {| status := rc; req := r1; body := [] |}.

End Csrfp.

(* ================================================================== *)
(** ** Vocabulary of the statements *)
(* ================================================================== *)

Import CLib Apr Httpd Csrfp.

(** A string of the model stands for a C string when it holds no NUL. *)
Definition nul_free (s : string) : Prop := c_str s = s.

Fixpoint no_semicolon (s : string) : bool :=
  match s with
  | EmptyString => true
  | String c t => negb (Ascii.eqb c ";") && no_semicolon t
  end.

(** [occurs_before n pre rest]: the text [n] starts at one of the bytes of
    [pre] in [pre ++ rest]. *)
Fixpoint occurs_before (n pre rest : string) : bool :=
  match pre with
  | EmptyString => false
  | String _ pre' => String.prefix n (pre ++ rest) || occurs_before n pre' rest
  end.

(** A form value that reaches the table as it was sent: no separator of the
    form encoding, no escape and no NUL in it. *)
Fixpoint plain (s : string) : bool :=
  match s with
  | EmptyString => true
  | String c t =>
      negb (Ascii.eqb c "&") && negb (Ascii.eqb c "=") && negb (Ascii.eqb c "%")
      && negb (Ascii.eqb c NUL) && plain t
  end.

(** The byte [c] does not occur in [s]. *)
Fixpoint lacks (c : ascii) (s : string) : bool :=
  match s with
  | EmptyString => true
  | String d t => negb (Ascii.eqb d c) && lacks c t
  end.

(** A string in lower case, as [strcasecmp] reads it. *)
Fixpoint lower (s : string) : string :=
  match s with
  | EmptyString => EmptyString
  | String c t => String (tolower c) (lower t)
  end.

(** The byte [c] is one of the bytes of the literal [stringset]. *)
Definition in_stringset (c : ascii) : bool :=
  existsb (Ascii.eqb c) (list_ascii_of_string stringset).

Fixpoint from_stringset (s : string) : bool :=
  match s with
  | EmptyString => true
  | String c t => in_stringset c && from_stringset t
  end.

Fixpoint from_stringset_or_nul (s : string) : bool :=
  match s with
  | EmptyString => true
  | String c t => (in_stringset c || Ascii.eqb c NUL) && from_stringset_or_nul t
  end.

(** The alphabet [A-Za-z0-9]. *)
Definition is_alnum (c : ascii) : bool :=
  let n := nat_of_ascii c in
  ((Nat.leb 65 n && Nat.leb n 90) || (Nat.leb 97 n && Nat.leb n 122)
   || (Nat.leb 48 n && Nat.leb n 57))%bool.

Fixpoint all_alnum (s : string) : bool :=
  match s with
  | EmptyString => true
  | String c t => is_alnum c && all_alnum t
  end.

(** The values of [rand()] that make [generateToken] index [stringset] at
    its terminator or past it. *)
Definition off_the_set (x : N) : bool :=
  let m := (x mod 123)%N in
  ((m =? 59) || (m =? 60) || (m =? 121) || (m =? 122))%N.

(** What one turn of the loop of [generateToken] stores when [rand()] is
    [m] modulo 123. *)
Definition stored_for (m : N) : result ascii :=
  let rno := Z.of_N m + 1 in
  if (rno <? 62)%Z then stringset_at rno else stringset_at (rno - 62).

Definition stores_alnum (m : N) : bool :=
  ((m =? 59) || (m =? 60) || (m =? 121) || (m =? 122))%N
  || match stored_for m with Ok c => is_alnum c | Fault _ => false end.

Definition stores_from_set (m : N) : bool :=
  ((m =? 59) || (m =? 60) || (m =? 121) || (m =? 122))%N
  || match stored_for m with
     | Ok c => in_stringset c && is_alnum c
     | Fault _ => false
     end.

(** The values of [rand()] that make [generateToken] index [stringset]
    past its terminator. *)
Definition past_the_set (x : N) : bool :=
  let m := (x mod 123)%N in ((m =? 60) || (m =? 122))%N.

Definition stores_set_or_nul_within (m : N) : bool :=
  ((m =? 60) || (m =? 122))%N
  || match stored_for m with
     | Ok c => in_stringset c || Ascii.eqb c NUL
     | Fault _ => false
     end.

(** A request as it reaches the header parser: nothing written yet, no
    filter of the module on it. *)
Definition incoming (m : string) (mnum : Z) (query : option string)
                    (hin : apr_table_t) (payload : option string) : request_rec :=
  {| method := m; method_number := mnum; args := query; content_type := None;
     headers_in := hin; headers_out := []; err_headers_out := [];
     subprocess_env := []; output_filters := [];
     setup_client_block := OK; client_block := payload;
     pool_residue := EmptyString; rprintf_out := EmptyString |}.

Definition form_urlencoded : string * string :=
  ("Content-Type", "application/x-www-form-urlencoded").

(* ================================================================== *)
(** ** Facts about the C string functions *)
(* ================================================================== *)

Section CStringFacts.

Import CLib.

Lemma code_inj (x y : ascii) : code x = code y -> x = y.
Proof.
  unfold code. intros H. apply Nat2Z.inj in H.
  rewrite <- (ascii_nat_embedding x), <- (ascii_nat_embedding y).
  now rewrite H.
Qed.

Lemma code_NUL (x : ascii) : code x = 0 -> x = NUL.
Proof. intros H. apply code_inj. exact H. Qed.

Lemma strcmp_refl (s : string) : strcmp s s = 0.
Proof.
  induction s as [|c s IH]; simpl.
  - reflexivity.
  - now rewrite Ascii.eqb_refl.
Qed.

Lemma nul_free_cons (c : ascii) (s : string) :
  nul_free (String c s) -> c <> NUL /\ nul_free s.
Proof.
  unfold nul_free. simpl. destruct (Ascii.eqb_spec c NUL) as [->|Hc].
  - discriminate.
  - intros H. injection H as H. now split.
Qed.

Lemma c_str_nul_free (s : string) : nul_free (c_str s).
Proof.
  unfold nul_free. induction s as [|c s IH]; simpl.
  - reflexivity.
  - destruct (Ascii.eqb_spec c NUL) as [->|Hc]; simpl.
    + reflexivity.
    + destruct (Ascii.eqb_spec c NUL); [contradiction|]. now rewrite IH.
Qed.

Lemma strcmp_zero (a b : string) :
  nul_free a -> nul_free b -> strcmp a b = 0 -> a = b.
Proof.
  revert b. induction a as [|x a IH]; intros [|y b] Ha Hb H; simpl in H.
  - reflexivity.
  - apply nul_free_cons in Hb as [Hy _]. exfalso. apply Hy, code_NUL. lia.
  - apply nul_free_cons in Ha as [Hx _]. exfalso. now apply Hx, code_NUL.
  - apply nul_free_cons in Ha as [_ Ha]. apply nul_free_cons in Hb as [_ Hb].
    destruct (Ascii.eqb_spec x y) as [->|Hxy].
    + f_equal. now apply IH.
    + exfalso. apply Hxy, code_inj. lia.
Qed.

Lemma strncpy_app (v rest : string) :
  strncpy (v ++ rest) (String.length v) = v.
Proof.
  induction v as [|c v IH]; simpl.
  - now destruct rest.
  - now rewrite IH.
Qed.

End CStringFacts.

(* ================================================================== *)
(** ** Facts about the tables and the word splitter *)
(* ================================================================== *)

Section TableFacts.

Import CLib Apr Httpd.

Lemma apr_table_get_addn_other (t : apr_table_t) (k v key : string) :
  key_eqb k key = false ->
  apr_table_get (apr_table_addn t k v) key = apr_table_get t key.
Proof.
  intros Hk. unfold apr_table_addn.
  induction t as [|[k0 v0] t IH]; simpl.
  - now rewrite Hk.
  - destruct (key_eqb k0 key); [reflexivity | exact IH].
Qed.

Lemma skip_stops_length (stop : ascii) (s : string) :
  (String.length (skip_stops stop s) <= String.length s)%nat.
Proof.
  induction s as [|c s IH]; simpl.
  - lia.
  - destruct (Ascii.eqb c stop); simpl; lia.
Qed.

(** [ap_getword] moves [line] forward whenever there is something left
    to read: this is what makes the two parsing loops stop. *)
Lemma ap_getword_consumes (line : string) (stop : ascii) :
  line <> EmptyString ->
  (String.length (snd (ap_getword line stop)) < String.length line)%nat.
Proof.
  induction line as [|c t IH]; intros Hne.
  - contradiction.
  - simpl. destruct (Ascii.eqb c stop) eqn:Hc.
    + simpl. pose proof (skip_stops_length stop t). lia.
    + destruct t as [|c' t'].
      * simpl. lia.
      * specialize (IH ltac:(discriminate)).
        destruct (ap_getword (String c' t') stop) as [w rest]. simpl in *. lia.
Qed.

End TableFacts.

(* ================================================================== *)
(** ** The parsing loops run to the end of their input *)
(* ================================================================== *)

Section Loops.

Lemma read_post_loop_fuel (f1 : nat) :
  forall (f2 : nat) (data : string) (tbl : apr_table_t),
    (String.length data <= f1)%nat -> (String.length data <= f2)%nat ->
    read_post_loop f1 data tbl = read_post_loop f2 data tbl.
Proof.
  induction f1 as [|f1 IH]; intros f2 data tbl H1 H2.
  - destruct data; [|simpl in H1; lia]. now destruct f2.
  - destruct data as [|c d].
    + now destruct f2.
    + destruct f2 as [|f2]; [simpl in H2; lia|].
      pose proof (ap_getword_consumes (String c d) "&" ltac:(discriminate)) as Hlt.
      cbn [read_post_loop].
      destruct (ap_getword (String c d) "&") as [val0 data'].
      destruct (ap_getword val0 "=") as [key val].
      cbn [snd String.length] in *. apply IH; lia.
Qed.

Lemma csrf_get_query_loop_fuel (f1 : nat) :
  forall (f2 : nat) (a : string) (tbl : apr_table_t),
    (String.length a <= f1)%nat -> (String.length a <= f2)%nat ->
    csrf_get_query_loop f1 a tbl = csrf_get_query_loop f2 a tbl.
Proof.
  induction f1 as [|f1 IH]; intros f2 a tbl H1 H2.
  - destruct a; [|simpl in H1; lia]. now destruct f2.
  - destruct a as [|c d].
    + now destruct f2.
    + destruct f2 as [|f2]; [simpl in H2; lia|].
      pose proof (ap_getword_consumes (String c d) "&" ltac:(discriminate)) as Hlt.
      cbn [csrf_get_query_loop].
      destruct (ap_getword (String c d) "&") as [value0 args'].
      destruct (ap_getword_nc value0 "=") as [name value].
      cbn [snd String.length] in *. apply IH; lia.
Qed.

(** With the fuel [read_post] gives it, the loop obeys the equation of
    the [while] of the source: it stops on an empty [data] only. *)
Lemma read_post_loop_unfold (c : ascii) (d : string) (tbl : apr_table_t) :
  read_post_loop (String.length (String c d)) (String c d) tbl =
  let (val0, data') := ap_getword (String c d) "&" in
  let (key, val) := ap_getword val0 "=" in
  read_post_loop (String.length data') data'
    (apr_table_setn tbl (ap_unescape_url key) (ap_unescape_url val)).
Proof.
  pose proof (ap_getword_consumes (String c d) "&" ltac:(discriminate)) as Hlt.
  cbn [String.length read_post_loop].
  destruct (ap_getword (String c d) "&") as [val0 data'].
  destruct (ap_getword val0 "=") as [key val].
  cbn [snd String.length] in Hlt. apply read_post_loop_fuel; lia.
Qed.

End Loops.

(* ================================================================== *)
(** ** The cookie scanner *)
(* ================================================================== *)

Section Cookie.

Lemma cookie_scan_shift (p : string) :
  forall pos : Z, cookie_scan p pos = pos + cookie_scan p 0.
Proof.
  induction p as [|c p IH]; intros pos; simpl.
  - lia.
  - destruct (Ascii.eqb c ";").
    + lia.
    + rewrite (IH (pos + 1)), (IH 1). lia.
Qed.

Lemma cookie_scan_value (v rest : string) (pos : Z) :
  no_semicolon v = true ->
  rest = EmptyString \/ (exists rest', rest = String ";" rest') ->
  cookie_scan (v ++ rest) pos = pos + strlen v.
Proof.
  intros Hv Hrest. revert pos.
  induction v as [|c v IH]; intros pos.
  - cbn [append]. unfold strlen. cbn [String.length].
    destruct Hrest as [->|[rest' ->]]; simpl; lia.
  - simpl in Hv. apply andb_prop in Hv as [Hc Hv].
    cbn [append cookie_scan].
    destruct (Ascii.eqb c ";"); [discriminate|].
    rewrite (IH Hv). unfold strlen. cbn [String.length]. lia.
Qed.

Lemma strstr_none_faults (r : request_rec) (cookie : string) :
  apr_table_get (headers_in r) "Cookie" = Some cookie ->
  strstr cookie CSRFP_TOKEN = None ->
  getCookieToken r = Fault NullDeref.
Proof.
  intros Hc Hs. unfold getCookieToken. now rewrite Hc, Hs.
Qed.

(** Where the name is found, the value is what stands between the byte
    after the name (any byte but [';']) and the next [';'] or the end. *)
Lemma getCookieToken_value (r : request_rec) (cookie v rest : string) (sep : ascii) :
  apr_table_get (headers_in r) "Cookie" = Some cookie ->
  strstr cookie CSRFP_TOKEN = Some (CSRFP_TOKEN ++ String sep (v ++ rest)) ->
  sep <> ";"%char ->
  no_semicolon v = true ->
  rest = EmptyString \/ (exists rest', rest = String ";" rest') ->
  getCookieToken r = Ok (Some v).
Proof.
  intros Hc Hs Hsep Hv Hrest. unfold getCookieToken. rewrite Hc, Hs.
  assert (Hpos : cookie_scan (CSRFP_TOKEN ++ String sep (v ++ rest)) 0
                 = 12 + strlen v).
  { unfold CSRFP_TOKEN. cbn [append cookie_scan Ascii.eqb Bool.eqb].
    destruct (Ascii.eqb_spec sep ";"); [contradiction|].
    now rewrite (cookie_scan_value v rest _ Hv Hrest). }
  cbv zeta. rewrite Hpos.
  assert (Hname : strlen CSRFP_TOKEN = 11) by reflexivity.
  replace (12 + strlen v - strlen CSRFP_TOKEN - 1) with (strlen v) by lia.
  unfold strlen. destruct (Z.ltb_spec (Z.of_nat (String.length v)) 0); [lia|].
  rewrite Nat2Z.id. unfold CSRFP_TOKEN. cbn [String.length Nat.add append advance].
  now rewrite strncpy_app.
Qed.

End Cookie.

(* ================================================================== *)
(** ** POST validation *)
(* ================================================================== *)

Section PostValidation.

Variable r : request_rec.
Variable tbl : apr_table_t.
Hypothesis form_read : read_post r = Ok (Some tbl).

Lemma validatePOSTtoken_no_field :
  apr_table_get tbl CSRFP_TOKEN = None -> validatePOSTtoken r = Ok 0.
Proof.
  intros Hf. unfold validatePOSTtoken. rewrite form_read. cbn [bind]. now rewrite Hf.
Qed.

Lemma validatePOSTtoken_match (t : string) :
  apr_table_get tbl CSRFP_TOKEN = Some t ->
  getCookieToken r = Ok (Some t) ->
  pool_residue r = EmptyString ->
  validatePOSTtoken r = Ok 1.
Proof.
  intros Hf Hc Hres. unfold validatePOSTtoken, read_block.
  rewrite form_read. cbn [bind]. rewrite Hf, Hc. cbn [bind]. rewrite Hres.
  replace (t ++ "") with t by (clear; induction t; simpl; congruence).
  now rewrite strcmp_refl.
Qed.

Lemma validatePOSTtoken_mismatch (t c : string) :
  apr_table_get tbl CSRFP_TOKEN = Some t ->
  getCookieToken r = Ok (Some c) ->
  pool_residue r = EmptyString ->
  nul_free t -> nul_free c -> t <> c ->
  validatePOSTtoken r = Ok 0.
Proof.
  intros Hf Hc Hres Ht Hcn Hne. unfold validatePOSTtoken, read_block.
  rewrite form_read. cbn [bind]. rewrite Hf, Hc. cbn [bind]. rewrite Hres.
  replace (c ++ "") with c by (clear; induction c; simpl; congruence).
  destruct (Z.eqb_spec (strcmp t c) 0) as [Hz|Hz]; [|reflexivity].
  exfalso. apply Hne. now apply strcmp_zero.
Qed.

Lemma validatePOSTtoken_no_cookie (t : string) :
  apr_table_get tbl CSRFP_TOKEN = Some t ->
  apr_table_get (headers_in r) "Cookie" = None ->
  validatePOSTtoken r = Fault NullDeref.
Proof.
  intros Hf Hc. unfold validatePOSTtoken, getCookieToken.
  rewrite form_read. cbn [bind]. now rewrite Hf, Hc.
Qed.

Lemma validatePOSTtoken_cookie_without_key (t cookie : string) :
  apr_table_get tbl CSRFP_TOKEN = Some t ->
  apr_table_get (headers_in r) "Cookie" = Some cookie ->
  strstr cookie CSRFP_TOKEN = None ->
  validatePOSTtoken r = Fault NullDeref.
Proof.
  intros Hf Hc Hs. unfold validatePOSTtoken.
  rewrite form_read. cbn [bind]. rewrite Hf.
  now rewrite (strstr_none_faults r cookie Hc Hs).
Qed.

End PostValidation.

(** The three requests of the specification that the code does answer. *)
Example post_same_token_passes :
  validatePOSTtoken
    (incoming "POST" M_POST None [form_urlencoded; ("Cookie", "sid=1; csrfp_token=A1b2")]
              (Some "x=1&csrfp_token=A1b2")) = Ok 1.
Proof. reflexivity. Qed.

Example post_other_token_fails :
  validatePOSTtoken
    (incoming "POST" M_POST None [form_urlencoded; ("Cookie", "csrfp_token=A1b2")]
              (Some "csrfp_token=B1b2")) = Ok 0.
Proof. reflexivity. Qed.

Example post_without_field_fails :
  validatePOSTtoken
    (incoming "POST" M_POST None [form_urlencoded] (Some "x=1")) = Ok 0.
Proof. reflexivity. Qed.

(** The block [getCookieToken] returns has no terminator of its own: with
    bytes left behind it in the pool, equal tokens compare different. *)
Example post_same_token_with_residue_fails :
  let r := incoming "POST" M_POST None [form_urlencoded; ("Cookie", "csrfp_token=A1b2")]
                    (Some "csrfp_token=A1b2") in
  validatePOSTtoken
    {| method := method r; method_number := method_number r; args := args r;
       content_type := content_type r; headers_in := headers_in r;
       headers_out := headers_out r; err_headers_out := err_headers_out r;
       subprocess_env := subprocess_env r; output_filters := output_filters r;
       setup_client_block := setup_client_block r; client_block := client_block r;
       pool_residue := "x"; rprintf_out := rprintf_out r |} = Ok 0.
Proof. reflexivity. Qed.

(** C2. POST validation of a form body: the specification asks that a
    request with no cookie at all fail (outcome NoCookie).  On such a
    request that submits a token, [getCookieToken] returns NULL and
    [validatePOSTtoken] hands it to [strcmp]: the validation, and the
    header parser with it, end in a NULL dereference and return nothing. *)
Theorem C2_post_without_cookie_faults :
  validatePOSTtoken
    (incoming "POST" M_POST None [form_urlencoded] (Some "csrfp_token=abc"))
  = Fault NullDeref
  /\ csrfp_header_parser csrfp_srv_config_create
       (incoming "POST" M_POST None [form_urlencoded] (Some "csrfp_token=abc"))
     = Fault NullDeref
  /\ validatePOSTtoken
       (incoming "POST" M_POST None [form_urlencoded; ("Cookie", "sid=1")]
                 (Some "csrfp_token=abc"))
     = Fault NullDeref.
Proof. repeat split; reflexivity. Qed.

(* ================================================================== *)
(** ** Cookie extraction *)
(* ================================================================== *)

Example cookie_token_not_first :
  getCookieToken (incoming "GET" M_GET None [("Cookie", "a=b; csrfp_token=abc; c=d")] None)
  = Ok (Some "abc").
Proof. reflexivity. Qed.

Example cookie_token_last :
  getCookieToken (incoming "GET" M_GET None [("Cookie", "a=b; csrfp_token=abc")] None)
  = Ok (Some "abc").
Proof. reflexivity. Qed.

Example cookie_token_empty_value :
  getCookieToken (incoming "GET" M_GET None [("Cookie", "csrfp_token=")] None)
  = Ok (Some "").
Proof. reflexivity. Qed.

(** The name with nothing after it: [len] is -1. *)
Example cookie_name_alone :
  getCookieToken (incoming "GET" M_GET None [("Cookie", "csrfp_token")] None)
  = Fault AllocFailure.
Proof. reflexivity. Qed.

(** C6. Cookie-token extraction: the specification asks for None, not a
    failure, when the header is empty or holds no csrfp_token key.  The
    code returns NULL only when there is no Cookie header; with a header
    that lacks the key, or an empty one, [strstr] yields NULL and
    [strlen] is called on it. *)
Theorem C6_getCookieToken_faults_without_the_key :
  getCookieToken (incoming "GET" M_GET None [("Cookie", "a=b")] None) = Fault NullDeref
  /\ getCookieToken (incoming "GET" M_GET None [("Cookie", "")] None) = Fault NullDeref
  /\ getCookieToken (incoming "GET" M_GET None [] None) = Ok None.
Proof. repeat split; reflexivity. Qed.

(** C10. The token is looked for at the first occurrence of the text
    "csrfp_token" in the Cookie header, not at a cookie of that name: when
    the text ends another cookie's name ("xcsrfp_token=v") or starts another
    cookie's value ("sid=csrfp_token=v"), the value [v] of that other cookie
    is what comes back, whatever the cookie named csrfp_token holds. *)
Theorem C10_token_taken_from_another_cookie
    (r : request_rec) (cookie v real : string) :
  apr_table_get (headers_in r) "Cookie" = Some cookie ->
  no_semicolon v = true ->
  cookie = "xcsrfp_token=" ++ v ++ "; csrfp_token=" ++ real
  \/ cookie = "sid=csrfp_token=" ++ v ++ "; csrfp_token=" ++ real ->
  getCookieToken r = Ok (Some v).
Proof.
  intros Hc Hv Hshape.
  apply (getCookieToken_value r cookie v ("; csrfp_token=" ++ real) "=" Hc).
  - destruct Hshape as [-> | ->]; reflexivity.
  - discriminate.
  - exact Hv.
  - right. now exists (" csrfp_token=" ++ real).
Qed.

Lemma C10_witness :
  let r := incoming "GET" M_GET None
             [("Cookie", "xcsrfp_token=v; csrfp_token=real")] None in
  no_semicolon "v" = true /\ getCookieToken r = Ok (Some "v").
Proof.
  split; [reflexivity|].
  apply (C10_token_taken_from_another_cookie _
           "xcsrfp_token=v; csrfp_token=real" "v" "real").
  - reflexivity.
  - reflexivity.
  - left. reflexivity.
Defined.

(* ================================================================== *)
(** ** Token generation *)
(* ================================================================== *)

Section Tokens.

Lemma stringset_has_60_characters : strlen stringset = 60.
Proof. reflexivity. Qed.

(** ['U'] and ['V'] are not in the set. *)
Lemma stringset_lacks_U_and_V :
  strstr stringset "U" = None /\ strstr stringset "V" = None.
Proof. split; reflexivity. Qed.

Lemma stores_alnum_below_123 (m : N) : (m < 123)%N -> stores_alnum m = true.
Proof.
  intros Hm.
  assert (Hall : forallb stores_alnum (map N.of_nat (seq 0 123)) = true)
    by (vm_compute; reflexivity).
  rewrite forallb_forall in Hall. apply Hall.
  rewrite <- (N2Nat.id m). apply in_map, in_seq. lia.
Qed.

Lemma loop_body_stored_for (x : N) :
  (let rno := Z.rem (Z.of_N x) 123 + 1 in
   if (rno <? 62)%Z then stringset_at rno else stringset_at (rno - 62))
  = stored_for (x mod 123).
Proof.
  unfold stored_for. change 123 with (Z.of_N 123). now rewrite <- N2Z.inj_rem.
Qed.

Lemma generateToken_loop_on_the_set (rand : nat -> N) (n : nat) :
  forall i : nat,
    (forall j, (i <= j < i + n)%nat -> off_the_set (rand j) = false) ->
    exists tok, generateToken_loop rand n i = Ok tok
                /\ String.length tok = n /\ all_alnum tok = true.
Proof.
  induction n as [|n IH]; intros i Hon.
  - exists EmptyString. now repeat split.
  - cbn [generateToken_loop]. rewrite loop_body_stored_for.
    assert (H123 : (123 <> 0)%N) by discriminate.
    pose proof (stores_alnum_below_123 _ (N.mod_lt (rand i) 123 H123)) as Hst.
    unfold stores_alnum in Hst.
    specialize (Hon i ltac:(lia)) as Hi. unfold off_the_set in Hi.
    cbv zeta in Hi. rewrite Hi in Hst. cbn [orb] in Hst.
    destruct (stored_for (rand i mod 123)) as [c|]; [|discriminate].
    destruct (IH (S i)) as (tok & Htok & Hlen & Hal).
    { intros j Hj. apply Hon. lia. }
    exists (String c tok). cbn [bind]. rewrite Htok. cbn [bind].
    repeat split; simpl; [now rewrite Hlen | now rewrite Hst, Hal].
Qed.

(** As long as [rand()] stays off four residues modulo 123, the token has
    the length asked for and is alphanumeric. *)
Lemma generateToken_on_the_set (rand : nat -> N) (length : Z) :
  0 <= length ->
  (forall j, (j < Z.to_nat length)%nat -> off_the_set (rand j) = false) ->
  exists tok, generateToken rand length = Ok tok
              /\ strlen tok = length /\ all_alnum tok = true.
Proof.
  intros Hlen Hon. unfold generateToken.
  destruct (Z.ltb_spec length 0); [lia|].
  destruct (generateToken_loop_on_the_set rand (Z.to_nat length) 0)
    as (tok & Htok & Hl & Hal).
  { intros j Hj. apply Hon. lia. }
  exists tok. repeat split; try assumption. unfold strlen. rewrite Hl. lia.
Qed.

Lemma generateToken_negative_length (rand : nat -> N) (length : Z) :
  length < 0 -> generateToken rand length = Fault AllocFailure.
Proof.
  intros H. unfold generateToken. now destruct (Z.ltb_spec length 0); [|lia].
Qed.

End Tokens.

(** C7. [generateToken] and the alphabet [A-Za-z0-9]: the specification
    asks for [length] characters of the 62-character alphabet.  The literal
    [stringset] holds 60 characters, while the index runs up to 61: when
    [rand()] is 59 the loop stores [stringset[60]], the terminator of the
    literal, and when it is 60 it reads [stringset[61]], past the literal.
    With [length = 1] and [rand() = 59] the token is one NUL byte, a C
    string of no character at all. *)
Theorem C7_generateToken_stores_the_terminator :
  generateToken (fun _ => 59%N) 1 = Ok (String NUL EmptyString)
  /\ is_alnum NUL = false
  /\ c_str (String NUL EmptyString) = EmptyString
  /\ generateToken (fun _ => 60%N) 1 = Fault OutOfBounds.
Proof. repeat split; reflexivity. Qed.

(* ================================================================== *)
(** ** The action taken on a failed validation *)
(* ================================================================== *)

Section Actions.

Variable conf : csrfp_config.
Variable r : request_rec.

Lemma failedValidationAction_forbidden :
  action conf = CSRFP_ACTION_FORBIDDEN ->
  failedValidationAction conf r = (HTTP_FORBIDDEN, r).
Proof. intros H. unfold failedValidationAction. now rewrite H. Qed.


Lemma failedValidationAction_message :
  action conf = CSRFP_ACTION_MESSAGE ->
  failedValidationAction conf r
  = (DONE, ap_rputs ("<h2>" ++ fmt_s (errorCustomMessage conf) ++ "</h2>") r).
Proof. intros H. unfold failedValidationAction. now rewrite H. Qed.

Lemma failedValidationAction_internal_server_error :
  action conf = CSRFP_ACTION_INTERNAL_SERVER_ERROR ->
  failedValidationAction conf r = (HTTP_INTERNAL_SERVER_ERROR, r).
Proof. intros H. unfold failedValidationAction. now rewrite H. Qed.

(** The [default:] of the [switch]. *)
Lemma failedValidationAction_other :
  action conf < 0 \/ 4 < action conf ->
  failedValidationAction conf r = (HTTP_FORBIDDEN, r).
Proof.
  intros H. unfold failedValidationAction, CSRFP_ACTION_FORBIDDEN, CSRFP_ACTION_STRIP,
    CSRFP_ACTION_REDIRECT, CSRFP_ACTION_MESSAGE, CSRFP_ACTION_INTERNAL_SERVER_ERROR.
  destruct (Z.eqb_spec (action conf) 0); [reflexivity|].
  repeat match goal with
         | |- context [(?a =? ?b)%Z] =>
             destruct (Z.eqb_spec a b); [exfalso; lia|]
         end.
  reflexivity.
Qed.

Lemma failedValidationAction_headers_out :
  headers_out (snd (failedValidationAction conf r)) = headers_out r.
Proof.
  unfold failedValidationAction.
  repeat match goal with
         | |- context [(?a =? ?b)%Z] => destruct (a =? b)%Z
         end; reflexivity.
Qed.

End Actions.

Section ActionDirective.

Variable config : csrfp_config.

(** [csrfpAction] never fails, and whatever its argument the action it
    leaves is one of the five codes. *)
Lemma csrfp_action_cmd_total (arg : string) :
  fst (csrfp_action_cmd config arg) = None
  /\ 0 <= action (snd (csrfp_action_cmd config arg)) <= 4.
Proof.
  unfold csrfp_action_cmd.
  repeat match goal with
         | |- context [(?a =? ?b)%Z] => destruct (a =? b)%Z
         end;
    (split; [reflexivity | cbv; split; discriminate]).
Qed.

Lemma csrfp_action_cmd_unknown_value :
  action (snd (csrfp_action_cmd config "teapot")) = CSRFP_ACTION_FORBIDDEN.
Proof. reflexivity. Qed.

Lemma csrfp_action_cmd_any_case :
  action (snd (csrfp_action_cmd config "Redirect")) = CSRFP_ACTION_REDIRECT
  /\ action (snd (csrfp_action_cmd config "MESSAGE")) = CSRFP_ACTION_MESSAGE.
Proof. split; reflexivity. Qed.

End ActionDirective.

Lemma default_action_is_forbidden :
  action csrfp_srv_config_create = CSRFP_ACTION_FORBIDDEN.
Proof. reflexivity. Qed.

(** C3. The action dispatcher: the specification asks for a redirect to
    cfg.redirectURI when the action is [redirect].  The code returns
    [DONE] there and does no more, whatever the URI: the request record
    comes back as it was, with no Location header, no status and no text.
    With the directives [csrfpAction redirect] and
    [errorRedirectionUri http://x/err], a POST whose token does not match
    the cookie is answered by an empty response. *)
Theorem C3_redirect_action_never_redirects :
  (forall (conf : csrfp_config) (uri : option string) (r : request_rec),
      failedValidationAction
        (set_errorRedirectionUri (set_action conf CSRFP_ACTION_REDIRECT) uri) r
      = (DONE, r))
  /\ (cfg <- csrfp_errorRedirectionUri_cmd
               (snd (csrfp_action_cmd csrfp_srv_config_create "redirect")) "http://x/err" ;;
      serve (snd cfg)
        (incoming "POST" M_POST None
                  [form_urlencoded; ("Cookie", "csrfp_token=A1b2")]
                  (Some "csrfp_token=B1b2"))
        ["<html></html>"])
     = Ok {| status := DONE;
             req := ap_add_output_filter "csrfp_out_filter"
                      (incoming "POST" M_POST None
                                [form_urlencoded; ("Cookie", "csrfp_token=A1b2")]
                                (Some "csrfp_token=B1b2"));
             body := [] |}.
Proof. split; [intros conf uri r|]; reflexivity. Qed.

(* ================================================================== *)
(** ** GET requests *)
(* ================================================================== *)

Lemma csrfp_header_parser_get (conf : csrfp_config) (r : request_rec) :
  flag conf <> 0 -> method r = "GET" ->
  csrfp_header_parser conf r
  = Ok (OK, mark_for_regeneration (ap_add_output_filter "csrfp_out_filter" r)).
Proof.
  intros Hf Hm. unfold csrfp_header_parser.
  destruct (Z.eqb_spec (flag conf) 0); [contradiction|].
  cbn [method ap_add_output_filter]. rewrite Hm. reflexivity.
Qed.

(** C4. GET validation: the specification asks that a GET request whose
    URI matches the configured pattern be validated against its query
    string.  The directive handler of [verifyGetFor] drops its argument and
    leaves the pattern unset, and the header parser does not look at the
    pattern at all: with [verifyGetFor .*] in force, a GET request whose
    query token differs from its cookie token (on which [validateGETTtoken]
    would return 0) is let through with [OK]. *)
Theorem C4_get_requests_are_never_validated :
  (forall (config : csrfp_config) (arg : string),
      verifyGetFor (snd (csrfp_verifyGetFor_cmd config arg)) = None)
  /\ (forall (conf : csrfp_config) (re : option ap_regex_t) (r : request_rec),
         csrfp_header_parser (set_verifyGetFor conf re) r = csrfp_header_parser conf r)
  /\ validateGETTtoken
       (incoming "GET" M_GET (Some "id=7&csrfp_token=bad")
                 [("Cookie", "csrfp_token=good")] None) = Ok 0
  /\ csrfp_header_parser
       (snd (csrfp_verifyGetFor_cmd csrfp_srv_config_create ".*"))
       (incoming "GET" M_GET (Some "id=7&csrfp_token=bad")
                 [("Cookie", "csrfp_token=good")] None)
     = Ok (OK, mark_for_regeneration
                 (ap_add_output_filter "csrfp_out_filter"
                    (incoming "GET" M_GET (Some "id=7&csrfp_token=bad")
                              [("Cookie", "csrfp_token=good")] None))).
Proof. repeat split; reflexivity. Qed.

(* ================================================================== *)
(** ** The output filter and the response *)
(* ================================================================== *)

Section Response.

Lemma csrfp_out_filter_brigade (r : request_rec) (bb : apr_bucket_brigade) :
  snd (csrfp_out_filter r bb) = bb.
Proof. reflexivity. Qed.

Lemma csrfp_out_filter_set_cookie (r : request_rec) (bb : apr_bucket_brigade) :
  apr_table_get (headers_out (fst (csrfp_out_filter r bb))) "Set-Cookie"
  = apr_table_get (headers_out r) "Set-Cookie".
Proof.
  unfold csrfp_out_filter. cbn [fst ap_rputs headers_out].
  destruct (apr_table_get _ "regenToken") as [v|];
    [destruct (strcasecmp v REGEN_TOKEN =? 0)%Z|];
    cbn [set_headers_out headers_out];
    now apply apr_table_get_addn_other.
Qed.

Lemma mark_for_regeneration_set_cookie (r : request_rec) :
  apr_table_get (headers_out (mark_for_regeneration r)) "Set-Cookie"
  = apr_table_get (headers_out r) "Set-Cookie".
Proof.
  unfold mark_for_regeneration.
  cbn [set_headers_out set_subprocess_env headers_out].
  now apply apr_table_get_addn_other.
Qed.

Lemma csrfp_header_parser_set_cookie
    (conf : csrfp_config) (r r' : request_rec) (rc : Z) :
  csrfp_header_parser conf r = Ok (rc, r') ->
  apr_table_get (headers_out r') "Set-Cookie"
  = apr_table_get (headers_out r) "Set-Cookie".
Proof.
  unfold csrfp_header_parser.
  destruct (flag conf =? 0)%Z.
  - intros [= _ <-]. reflexivity.
  - destruct (strcmp _ "POST" =? 0)%Z.
    + destruct (validatePOSTtoken _) as [v|f]; cbn [bind]; [|discriminate].
      destruct (v =? 0)%Z.
      * intros [= H]. apply (f_equal snd) in H. cbn [snd] in H. subst r'.
        now rewrite failedValidationAction_headers_out.
      * destruct (strcmp _ "GET" =? 0)%Z; intros [= _ <-];
          now rewrite mark_for_regeneration_set_cookie.
    + cbn [bind]. destruct (strcmp _ "GET" =? 0)%Z; intros [= _ <-];
        now rewrite mark_for_regeneration_set_cookie.
Qed.

Lemma serve_set_cookie
    (conf : csrfp_config) (r : request_rec) (content : apr_bucket_brigade)
    (resp : response) :
  serve conf r content = Ok resp ->
  apr_table_get (headers_out (req resp)) "Set-Cookie"
  = apr_table_get (headers_out r) "Set-Cookie".
Proof.
  unfold serve.
  destruct (csrfp_header_parser conf r) as [[rc r1]|f] eqn:Hhp; cbn [bind];
    [|discriminate].
  apply csrfp_header_parser_set_cookie in Hhp.
  destruct (rc =? OK)%Z; [destruct (has_filter _ r1)|].
  - pose proof (csrfp_out_filter_set_cookie r1 content) as Hf.
    destruct (csrfp_out_filter r1 content) as [r2 bb].
    intros [= <-]. cbn [fst req] in *. congruence.
  - intros [= <-]. exact Hhp.
  - intros [= <-]. exact Hhp.
Qed.

End Response.

(** C5. The response rewriter: the specification asks that an HTML body
    get a noscript block after [<body] and a script reference before
    [</body>].  [csrfp_out_filter] hands the brigade it was given to the
    next filter as it is, for every request and every brigade; what it
    adds to the response is a header [output_filter] and the text
    ["<br>output filter"].  The body of the specification's example goes
    out without noscript block and without script reference. *)
Theorem C5_out_filter_inserts_nothing :
  (forall (r : request_rec) (bb : apr_bucket_brigade),
      snd (csrfp_out_filter r bb) = bb)
  /\ getOutputContentType
       (set_headers_out (incoming "GET" M_GET None [] None)
                        [("Content-Type", "text/html")]) = Some "text/html"
  /\ (resp <- serve csrfp_srv_config_create
                (set_headers_out (incoming "GET" M_GET None [] None)
                                 [("Content-Type", "text/html")])
                ["<html><body>hi</body></html>"] ;;
      Ok (status resp, body resp, rprintf_out (req resp)))
     = Ok (OK, ["<html><body>hi</body></html>"], "<br>output filter").
Proof. repeat split; reflexivity. Qed.

(** C1. Token rotation: the specification asks that every response to
    an allowed request carry a Set-Cookie with a fresh csrfp_token.  The
    header parser marks the request ([regenToken]) and the output filter
    reads the mark, and then does nothing with it; [setTokenCookie] is a
    stub that reports failure.  No response gets a Set-Cookie header from
    the module: the headers of an allowed GET request are X-Protected-By
    and output_filter, and a second request is answered the same way. *)
Theorem C1_no_token_cookie_is_set :
  (forall (conf : csrfp_config) (r : request_rec) (content : apr_bucket_brigade),
      match serve conf r content with
      | Ok resp => apr_table_get (headers_out (req resp)) "Set-Cookie"
                   = apr_table_get (headers_out r) "Set-Cookie"
      | Fault _ => True
      end)
  /\ (resp <- serve csrfp_srv_config_create (incoming "GET" M_GET None [] None)
                ["<html></html>"] ;;
      Ok (status resp, headers_out (req resp)))
     = Ok (OK, [("X-Protected-By", "CSRFP 0.0.1"); ("output_filter", "called")])
  /\ (forall r : request_rec, setTokenCookie r = 0).
Proof.
  split; [|split; reflexivity].
  intros conf r content.
  destruct (serve conf r content) as [resp|f] eqn:Hs; [|exact I].
  exact (serve_set_cookie conf r content resp Hs).
Qed.

(* ================================================================== *)
(** ** The module switched off *)
(* ================================================================== *)

Lemma csrfp_enable_cmd_off (config : csrfp_config) :
  flag (snd (csrfp_enable_cmd config "off")) = 0
  /\ flag (snd (csrfp_enable_cmd config "Off")) = 0
  /\ flag (snd (csrfp_enable_cmd config "on")) = 1.
Proof. repeat split; reflexivity. Qed.

(** C8. With the module disabled ([flag] is 0) the header parser returns
    [OK] at once and leaves the request record as it found it: no
    X-Protected-By header, no [regenToken] mark and so no cookie, no output
    filter on the request, no validation (the answer is [OK] for every
    request, also for those on which validation would fail or fault); the
    content of the application is the body of the response, unchanged. *)
Theorem C8_disabled_module_bypasses
    (conf : csrfp_config) (r : request_rec) (content : apr_bucket_brigade) :
  flag conf = 0 ->
  has_filter "csrfp_out_filter" r = false ->
  csrfp_header_parser conf r = Ok (OK, r)
  /\ serve conf r content = Ok {| status := OK; req := r; body := content |}.
Proof.
  intros Hflag Hfilter.
  assert (Hhp : csrfp_header_parser conf r = Ok (OK, r)).
  { unfold csrfp_header_parser. now rewrite Hflag. }
  split; [exact Hhp|].
  unfold serve. rewrite Hhp. cbn [bind]. now rewrite Z.eqb_refl, Hfilter.
Qed.

Lemma C8_witness :
  let conf := snd (csrfp_enable_cmd csrfp_srv_config_create "off") in
  let r := incoming "POST" M_POST None [form_urlencoded] (Some "csrfp_token=abc") in
  (flag conf = 0 /\ has_filter "csrfp_out_filter" r = false)
  /\ csrfp_header_parser conf r = Ok (OK, r)
  /\ serve conf r ["<html><body>hi</body></html>"]
     = Ok {| status := OK; req := r; body := ["<html><body>hi</body></html>"] |}.
Proof.
  split; [split; reflexivity|].
  apply (C8_disabled_module_bypasses
           (snd (csrfp_enable_cmd csrfp_srv_config_create "off"))
           (incoming "POST" M_POST None [form_urlencoded] (Some "csrfp_token=abc"))
           ["<html><body>hi</body></html>"]); reflexivity.
Defined.

(* ================================================================== *)
(** ** The tokenLength directive *)
(* ================================================================== *)

Lemma tokenLength_negative_is_stored :
  tokenLength (snd (csrfp_tokenLength_cmd csrfp_srv_config_create "-5")) = -5
  /\ generateToken (fun _ => 0%N) (-5) = Fault AllocFailure.
Proof. split; reflexivity. Qed.

Lemma tokenLength_not_a_number_is_ignored :
  csrfp_tokenLength_cmd csrfp_srv_config_create "twenty"
  = (None, csrfp_srv_config_create).
Proof. reflexivity. Qed.




(* ================================================================== *)
(** ** Where the cookie scanner finds the token *)
(* ================================================================== *)

Section CookiePlacement.

Lemma strstr_first (n pre p : string) :
  occurs_before n pre p = false -> String.prefix n p = true ->
  strstr (pre ++ p) n = Some p.
Proof.
  intros Hbefore Hp. induction pre as [|a pre IH].
  - cbn [append]. destruct p; cbn [strstr]; now rewrite Hp.
  - cbn [occurs_before] in Hbefore. apply orb_false_elim in Hbefore as [Hhere Hlater].
    cbn [append] in *. cbn [strstr]. rewrite Hhere. now apply IH.
Qed.

Lemma strstr_some (h n p : string) :
  strstr h n = Some p ->
  exists pre, h = pre ++ p /\ String.prefix n p = true /\ occurs_before n pre p = false.
Proof.
  induction h as [|a h IH]; cbn [strstr].
  - destruct (String.prefix n "") eqn:Hp; [|discriminate].
    intros [= <-]. now exists EmptyString.
  - destruct (String.prefix n (String a h)) eqn:Hp.
    + intros [= <-]. now exists EmptyString.
    + intros Hs. destruct (IH Hs) as (pre & -> & Hpre & Hbefore).
      exists (String a pre). cbn [append occurs_before]. now rewrite Hp, Hbefore.
Qed.

Lemma prefix_split (n p : string) :
  String.prefix n p = true -> exists q, p = n ++ q.
Proof.
  revert p. induction n as [|c n IH]; intros p Hp.
  - now exists p.
  - destruct p as [|d p]; [discriminate|]. cbn [String.prefix] in Hp.
    destruct (ascii_dec c d) as [->|]; [|discriminate].
    destruct (IH p Hp) as [q ->]. now exists q.
Qed.

Lemma prefix_app (n q : string) : String.prefix n (n ++ q) = true.
Proof.
  induction n as [|c n IH]; cbn [append String.prefix].
  - now destruct q.
  - destruct (ascii_dec c c); [exact IH | contradiction].
Qed.

(** Every string splits at its first [';']. *)
Lemma cookie_scan_split (s : string) :
  exists v post,
    s = v ++ post /\ no_semicolon v = true
    /\ (post = EmptyString \/ exists post', post = String ";" post')
    /\ cookie_scan s 0 = strlen v.
Proof.
  induction s as [|c s (v & post & Hs & Hv & Hpost & Hscan)].
  - exists EmptyString, EmptyString. repeat split; auto.
  - destruct (Ascii.eqb c ";") eqn:Hc.
    + exists EmptyString, (String c s). apply Ascii.eqb_eq in Hc as ->.
      repeat split; eauto.
    + exists (String c v), post. subst s. cbn [append no_semicolon cookie_scan].
      rewrite Hc. repeat split; auto.
      rewrite cookie_scan_shift, Hscan. unfold strlen. cbn [String.length]. lia.
Qed.

Lemma cookie_scan_name (q : string) :
  cookie_scan (CSRFP_TOKEN ++ q) 0 = 11 + cookie_scan q 0.
Proof.
  unfold CSRFP_TOKEN. cbn [append cookie_scan Ascii.eqb Bool.eqb].
  now rewrite cookie_scan_shift.
Qed.

End CookiePlacement.

(** X1. The token need not be the first cookie: when the text csrfp_token
    first appears at the end of [pre], followed by one byte (which the code
    does not compare with ['=']) and by a value [v] that runs to the next
    [';'] or to the end of the header, [getCookieToken] returns [v]. *)
Theorem X1_getCookieToken_extracts
    (r : request_rec) (pre v rest : string) (sep : ascii) :
  apr_table_get (headers_in r) "Cookie"
  = Some (pre ++ CSRFP_TOKEN ++ String sep (v ++ rest)) ->
  occurs_before CSRFP_TOKEN pre (CSRFP_TOKEN ++ String sep (v ++ rest)) = false ->
  sep <> ";"%char ->
  no_semicolon v = true ->
  rest = EmptyString \/ (exists rest', rest = String ";" rest') ->
  getCookieToken r = Ok (Some v).
Proof.
  intros Hc Hbefore Hsep Hv Hrest.
  apply (getCookieToken_value r _ v rest sep Hc); auto.
  apply strstr_first; [exact Hbefore | apply prefix_app].
Qed.

Lemma X1_witness :
  let r := incoming "GET" M_GET None
             [("Cookie", "lang=en; csrfp_token=Zx9; theme=dark")] None in
  (apr_table_get (headers_in r) "Cookie"
   = Some ("lang=en; " ++ CSRFP_TOKEN ++ String "=" ("Zx9" ++ "; theme=dark"))
   /\ occurs_before CSRFP_TOKEN "lang=en; "
        (CSRFP_TOKEN ++ String "=" ("Zx9" ++ "; theme=dark")) = false
   /\ "="%char <> ";"%char
   /\ no_semicolon "Zx9" = true)
  /\ getCookieToken r = Ok (Some "Zx9").
Proof.
  split; [repeat split; (reflexivity || discriminate)|].
  apply (X1_getCookieToken_extracts _ "lang=en; " "Zx9" "; theme=dark" "=").
  - reflexivity.
  - reflexivity.
  - discriminate.
  - reflexivity.
  - right. now exists " theme=dark".
Defined.

(** X2. Whatever [getCookieToken] returns was in the header: the Cookie
    header reads [pre ++ "csrfp_token" ++ sep ++ tok ++ post], the name
    not starting anywhere in [pre], [sep] one byte other than [';'], [tok]
    free of [';'] and [post] empty or starting with [';'].  The [len]
    bytes copied all lie inside the header. *)
Theorem X2_getCookieToken_sound (r : request_rec) (tok : string) :
  getCookieToken r = Ok (Some tok) ->
  exists pre sep post,
    apr_table_get (headers_in r) "Cookie"
    = Some (pre ++ CSRFP_TOKEN ++ String sep (tok ++ post))
    /\ occurs_before CSRFP_TOKEN pre (CSRFP_TOKEN ++ String sep (tok ++ post)) = false
    /\ sep <> ";"%char
    /\ no_semicolon tok = true
    /\ (post = EmptyString \/ exists post', post = String ";" post').
Proof.
  unfold getCookieToken.
  destruct (apr_table_get (headers_in r) "Cookie") as [cookie|]; [|discriminate].
  destruct (strstr cookie CSRFP_TOKEN) as [p|] eqn:Hs; [|discriminate].
  apply strstr_some in Hs as (pre & -> & Hp & Hbefore).
  apply prefix_split in Hp as [q ->].
  cbv zeta. rewrite cookie_scan_name.
  assert (Hname : strlen CSRFP_TOKEN = 11) by reflexivity. rewrite Hname.
  destruct q as [|sep q].
  - cbn [cookie_scan]. discriminate.
  - cbn [cookie_scan]. destruct (Ascii.eqb sep ";") eqn:Hsep; [discriminate|].
    rewrite cookie_scan_shift.
    destruct (cookie_scan_split q) as (v & post & -> & Hv & Hpost & Hscan).
    rewrite Hscan.
    replace (11 + (0 + 1 + strlen v) - 11 - 1) with (strlen v) by lia.
    unfold strlen. destruct (Z.ltb_spec (Z.of_nat (String.length v)) 0); [lia|].
    rewrite Nat2Z.id. intros Hret. unfold CSRFP_TOKEN in Hret.
    cbn [String.length Nat.add append advance] in Hret.
    rewrite strncpy_app in Hret. injection Hret as <-.
    exists pre, sep, post. repeat split; auto.
    intros ->. discriminate.
Qed.

Lemma X2_witness :
  let r := incoming "GET" M_GET None [("Cookie", "a=b; csrfp_token=abc; c=d")] None in
  getCookieToken r = Ok (Some "abc")
  /\ exists pre sep post,
       apr_table_get (headers_in r) "Cookie"
       = Some (pre ++ CSRFP_TOKEN ++ String sep ("abc" ++ post))
       /\ occurs_before CSRFP_TOKEN pre (CSRFP_TOKEN ++ String sep ("abc" ++ post)) = false
       /\ sep <> ";"%char
       /\ no_semicolon "abc" = true
       /\ (post = EmptyString \/ exists post', post = String ";" post').
Proof.
  split; [reflexivity|].
  apply (X2_getCookieToken_sound
           (incoming "GET" M_GET None [("Cookie", "a=b; csrfp_token=abc; c=d")] None)
           "abc").
  reflexivity.
Defined.

(** X3. The name with no byte after it, or with [';'] right after it:
    [len] is -1, and the size handed to [apr_pcalloc] is that of a negative
    [int]. *)
Theorem X3_getCookieToken_bare_name (r : request_rec) (pre rest : string) :
  apr_table_get (headers_in r) "Cookie" = Some (pre ++ CSRFP_TOKEN ++ rest) ->
  occurs_before CSRFP_TOKEN pre (CSRFP_TOKEN ++ rest) = false ->
  rest = EmptyString \/ (exists rest', rest = String ";" rest') ->
  getCookieToken r = Fault AllocFailure.
Proof.
  intros Hc Hbefore Hrest. unfold getCookieToken. rewrite Hc.
  rewrite (strstr_first _ _ _ Hbefore (prefix_app _ _)).
  cbv zeta. rewrite cookie_scan_name.
  destruct Hrest as [->|[rest' ->]]; reflexivity.
Qed.

Lemma X3_witness :
  let r := incoming "GET" M_GET None [("Cookie", "sid=1; csrfp_token; a=b")] None in
  (apr_table_get (headers_in r) "Cookie" = Some ("sid=1; " ++ CSRFP_TOKEN ++ "; a=b")
   /\ occurs_before CSRFP_TOKEN "sid=1; " (CSRFP_TOKEN ++ "; a=b") = false)
  /\ getCookieToken r = Fault AllocFailure.
Proof.
  split; [split; reflexivity|].
  apply (X3_getCookieToken_bare_name _ "sid=1; " "; a=b").
  - reflexivity.
  - reflexivity.
  - right. now exists " a=b".
Defined.

(* ================================================================== *)
(** ** What the form parser puts in the table *)
(* ================================================================== *)

Section FormParsing.

Lemma length_app (a b : string) :
  String.length (a ++ b) = (String.length a + String.length b)%nat.
Proof. induction a as [|c a IH]; simpl; [reflexivity | now rewrite IH]. Qed.


Lemma plain_cons (c : ascii) (t : string) :
  plain (String c t) = true ->
  c <> "&"%char /\ c <> "="%char /\ c <> "%"%char /\ c <> NUL /\ plain t = true.
Proof.
  cbn [plain]. intros H.
  repeat (apply andb_prop in H as [H ?]).
  repeat match goal with
         | Hn : negb (Ascii.eqb _ _) = true |- _ =>
             apply negb_true_iff, Ascii.eqb_neq in Hn
         end.
  auto.
Qed.

Lemma plain_lacks (t : string) :
  plain t = true -> lacks "&" t = true /\ lacks "=" t = true.
Proof.
  induction t as [|c t IH]; [now split|].
  intros H. apply plain_cons in H as (Ha & He & _ & _ & Ht).
  destruct (IH Ht) as [IHa IHe]. cbn [lacks].
  apply Ascii.eqb_neq in Ha, He. now rewrite Ha, He, IHa, IHe.
Qed.

Lemma plain_nul_free (t : string) : plain t = true -> nul_free t.
Proof.
  unfold nul_free. induction t as [|c t IH]; [reflexivity|].
  intros H. apply plain_cons in H as (_ & _ & _ & Hn & Ht).
  cbn [c_str]. apply Ascii.eqb_neq in Hn. rewrite Hn. now rewrite (IH Ht).
Qed.

Lemma plain_unescape (t : string) : plain t = true -> ap_unescape_url t = t.
Proof.
  intros H. unfold ap_unescape_url.
  assert (Hu : unescape_bytes t = t).
  { induction t as [|c t IH]; [reflexivity|].
    apply plain_cons in H as (_ & _ & Hp & _ & Ht).
    cbn [unescape_bytes]. apply Ascii.eqb_neq in Hp. rewrite Hp. now rewrite (IH Ht). }
  rewrite Hu. now apply plain_nul_free.
Qed.

Lemma ap_getword_whole (stop : ascii) (w : string) :
  lacks stop w = true -> ap_getword w stop = (w, EmptyString).
Proof.
  induction w as [|c w IH]; [reflexivity|].
  cbn [lacks ap_getword]. intros H. apply andb_prop in H as [Hc Hw].
  apply negb_true_iff in Hc. rewrite Hc, (IH Hw). reflexivity.
Qed.

Lemma ap_getword_word (stop : ascii) (w rest : string) :
  lacks stop w = true ->
  ap_getword (w ++ String stop rest) stop = (w, skip_stops stop rest).
Proof.
  induction w as [|c w IH]; intros H.
  - cbn [append ap_getword skip_stops]. now rewrite Ascii.eqb_refl.
  - cbn [lacks] in H. apply andb_prop in H as [Hc Hw]. apply negb_true_iff in Hc.
    cbn [append ap_getword]. rewrite Hc, (IH Hw). reflexivity.
Qed.

Lemma lacks_app (c : ascii) (a b : string) :
  lacks c (a ++ b) = (lacks c a && lacks c b)%bool.
Proof.
  induction a as [|d a IH]; [reflexivity|].
  cbn [append lacks]. rewrite IH. now rewrite andb_assoc.
Qed.

Lemma skip_stops_not_at_stop (stop : ascii) (s : string) :
  lacks stop s = true -> skip_stops stop s = s.
Proof.
  destruct s as [|c s]; [reflexivity|].
  cbn [lacks skip_stops]. intros H. apply andb_prop in H as [Hc _].
  apply negb_true_iff in Hc. now rewrite Hc.
Qed.

Lemma key_eqb_refl (k : string) : key_eqb k k = true.
Proof.
  unfold key_eqb. apply Z.eqb_eq.
  induction k as [|c k IH]; cbn [strcasecmp]; [reflexivity|].
  now rewrite Ascii.eqb_refl.
Qed.

(** Insert, then look up. *)
Lemma apr_table_get_setn (t : apr_table_t) (k v : string) :
  apr_table_get (apr_table_setn t k v) k = Some v.
Proof.
  induction t as [|[k0 v0] t IH]; cbn [apr_table_setn apr_table_get].
  - now rewrite key_eqb_refl.
  - destruct (key_eqb k0 k) eqn:Hk; cbn [apr_table_get]; rewrite Hk; [reflexivity|].
    exact IH.
Qed.


(** One turn of the loop of [read_post] on a lone field [csrfp_token=t]. *)
Lemma read_post_loop_token_field (t : string) (tbl : apr_table_t) :
  plain t = true ->
  read_post_loop (String.length (CSRFP_TOKEN ++ String "=" t))
                 (CSRFP_TOKEN ++ String "=" t) tbl
  = apr_table_setn tbl CSRFP_TOKEN t.
Proof.
  intros Ht. destruct (plain_lacks t Ht) as [Hamp Heq].
  assert (Hbody : lacks "&" (CSRFP_TOKEN ++ String "=" t) = true).
  { rewrite lacks_app. cbn [lacks]. now rewrite Hamp. }
  unfold CSRFP_TOKEN at 1 2.
  cbn [append String.length read_post_loop].
  change (String "c" (String "s" (String "r" (String "f" (String "p" (String "_"
          (String "t" (String "o" (String "k" (String "e" (String "n"
          (String "=" t))))))))))))
    with (CSRFP_TOKEN ++ String "=" t).
  rewrite (ap_getword_whole "&" _ Hbody).
  rewrite (ap_getword_word "=" CSRFP_TOKEN t eq_refl).
  rewrite (skip_stops_not_at_stop "=" t Heq).
  rewrite (plain_unescape t Ht).
  change (ap_unescape_url CSRFP_TOKEN) with CSRFP_TOKEN.
  now destruct (String.length t).
Qed.

Lemma skip_stops_before_field (o last : string) :
  lacks "&" last = true ->
  skip_stops "&" (o ++ String "&" last) = last
  \/ exists o', skip_stops "&" (o ++ String "&" last) = o' ++ String "&" last
                /\ (String.length o' <= String.length o)%nat.
Proof.
  intros Hlast. induction o as [|c o IH].
  - left. cbn [append skip_stops Ascii.eqb Bool.eqb].
    now apply skip_stops_not_at_stop.
  - cbn [append skip_stops]. destruct (Ascii.eqb c "&").
    + destruct IH as [IH|(o' & IH & Hlen)]; [now left|].
      right. exists o'. split; [exact IH | simpl; lia].
    + right. exists (String c o). split; [reflexivity | lia].
Qed.

Lemma ap_getword_before_field (o last : string) :
  lacks "&" last = true ->
  exists w rest,
    ap_getword (o ++ String "&" last) "&" = (w, rest)
    /\ (rest = last
        \/ exists o', rest = o' ++ String "&" last
                      /\ (String.length o' < String.length o)%nat).
Proof.
  intros Hlast. induction o as [|c o (w & rest & Hw & Hrest)].
  - exists EmptyString, last. split; [|now left].
    cbn [append ap_getword skip_stops Ascii.eqb Bool.eqb].
    now rewrite (skip_stops_not_at_stop "&" last Hlast).
  - cbn [append ap_getword]. destruct (Ascii.eqb c "&") eqn:Hc.
    + exists EmptyString, (skip_stops "&" (String c (o ++ String "&" last))).
      split; [reflexivity|]. cbn [skip_stops]. rewrite Hc.
      destruct (skip_stops_before_field o last Hlast) as [->|(o' & -> & Hlen)].
      * now left.
      * right. exists o'. split; [reflexivity | simpl; lia].
    + rewrite Hw. exists (String c w), rest. split; [reflexivity|].
      destruct Hrest as [->|(o' & -> & Hlen)]; [now left|].
      right. exists o'. split; [reflexivity | simpl; lia].
Qed.

(** The fields before the last one leave some table behind; the last field
    is then read on its own. *)
Lemma read_post_loop_reaches_last (last : string) (n : nat) :
  lacks "&" last = true ->
  forall (o : string) (fuel : nat) (tbl : apr_table_t),
    (String.length o <= n)%nat ->
    (String.length (o ++ String "&" last) <= fuel)%nat ->
    exists tbl',
      read_post_loop fuel (o ++ String "&" last) tbl
      = read_post_loop (String.length last) last tbl'.
Proof.
  intros Hlast. induction n as [|n IH]; intros o fuel tbl Hn Hfuel.
  - destruct o; [|simpl in Hn; lia].
    destruct fuel as [|fuel]; [simpl in Hfuel; lia|].
    destruct (ap_getword_before_field "" last Hlast) as (w & rest & Hw & Hrest).
    cbn [append] in *. cbn [read_post_loop]. rewrite Hw.
    destruct (ap_getword w "=") as [key val].
    destruct Hrest as [->|(o' & _ & Hlen)]; [|simpl in Hlen; lia].
    eexists. apply read_post_loop_fuel; simpl in Hfuel; lia.
  - destruct fuel as [|fuel]; [rewrite length_app in Hfuel; simpl in Hfuel; lia|].
    destruct (ap_getword_before_field o last Hlast) as (w & rest & Hw & Hrest).
    rewrite length_app in Hfuel. cbn [String.length] in Hfuel.
    assert (Hstep : forall tbl0,
               read_post_loop (S fuel) (o ++ String "&" last) tbl0
               = let (key, val) := ap_getword w "=" in
                 read_post_loop fuel rest
                   (apr_table_setn tbl0 (ap_unescape_url key) (ap_unescape_url val))).
    { intros tbl0. destruct o; cbn [append read_post_loop] in *; now rewrite Hw. }
    rewrite Hstep. destruct (ap_getword w "=") as [key val].
    destruct Hrest as [->|(o' & -> & Hlen)].
    + eexists. apply read_post_loop_fuel; lia.
    + apply IH; [lia|]. rewrite length_app. cbn [String.length]. lia.
Qed.

End FormParsing.

Section FormRequest.

Variable r : request_rec.
Variables ct body t : string.

Hypothesis is_post : method_number r = M_POST.
Hypothesis has_type : apr_table_get (headers_in r) "Content-Type" = Some ct.
Hypothesis form_type : strcasecmp ct DEFAULT_POST_ENCTYPE = 0.
Hypothesis block_ok : setup_client_block r = OK.
Hypothesis has_body : client_block r = Some body.
Hypothesis body_c_string : nul_free body.
Hypothesis token_plain : plain t = true.
Hypothesis token_last :
  body = CSRFP_TOKEN ++ String "=" t
  \/ exists other, body = other ++ String "&" (CSRFP_TOKEN ++ String "=" t).

Lemma read_post_of_form :
  read_post r = Ok (Some (read_post_loop (String.length body) body apr_table_make)).
Proof.
  unfold read_post, util_read.
  rewrite is_post, has_type, form_type, block_ok, has_body.
  cbn [Z.eqb negb M_POST OK Pos.eqb]. now rewrite body_c_string.
Qed.

Lemma read_post_token :
  exists tbl, read_post r = Ok (Some tbl) /\ apr_table_get tbl CSRFP_TOKEN = Some t.
Proof.
  rewrite read_post_of_form. eexists. split; [reflexivity|].
  destruct token_last as [->|[other ->]].
  - rewrite (read_post_loop_token_field t _ token_plain). apply apr_table_get_setn.
  - assert (Hlast : lacks "&" (CSRFP_TOKEN ++ String "=" t) = true).
    { rewrite lacks_app. cbn [lacks]. now rewrite (proj1 (plain_lacks t token_plain)). }
    destruct (read_post_loop_reaches_last _ (String.length other) Hlast other
                (String.length (other ++ String "&" (CSRFP_TOKEN ++ String "=" t)))
                apr_table_make (le_n _) (le_n _)) as [tbl' ->].
    rewrite (read_post_loop_token_field t _ token_plain). apply apr_table_get_setn.
Qed.

Lemma validatePOSTtoken_of_form (c : string) :
  getCookieToken r = Ok (Some c) ->
  nul_free c ->
  pool_residue r = EmptyString ->
  validatePOSTtoken r = Ok (if String.eqb t c then 1 else 0).
Proof.
  intros Hc Hcn Hres. destruct read_post_token as (tbl & Hread & Hget).
  destruct (String.eqb_spec t c) as [<-|Hne].
  - exact (validatePOSTtoken_match r tbl Hread t Hget Hc Hres).
  - exact (validatePOSTtoken_mismatch r tbl Hread t c Hget Hc Hres
             (plain_nul_free t token_plain) Hcn Hne).
Qed.

End FormRequest.

(** X4. In a form body the last csrfp_token field decides: whatever
    fields stand before it (earlier csrfp_token fields among them),
    [read_post] returns a table in which csrfp_token is the value of the
    last one. *)
Theorem X4_read_post_last_token_wins
    (r : request_rec) (ct body t : string) :
  method_number r = M_POST ->
  apr_table_get (headers_in r) "Content-Type" = Some ct ->
  strcasecmp ct DEFAULT_POST_ENCTYPE = 0 ->
  setup_client_block r = OK ->
  client_block r = Some body ->
  nul_free body ->
  plain t = true ->
  (body = CSRFP_TOKEN ++ String "=" t
   \/ exists other, body = other ++ String "&" (CSRFP_TOKEN ++ String "=" t)) ->
  exists tbl, read_post r = Ok (Some tbl) /\ apr_table_get tbl CSRFP_TOKEN = Some t.
Proof. intros. eapply read_post_token; eassumption. Qed.

Lemma X4_witness :
  let r := incoming "POST" M_POST None
             [("content-type", "Application/X-WWW-Form-Urlencoded")]
             (Some "csrfp_token=old&x=1&&csrfp_token=new") in
  (method_number r = M_POST
   /\ apr_table_get (headers_in r) "Content-Type"
      = Some "Application/X-WWW-Form-Urlencoded"
   /\ strcasecmp "Application/X-WWW-Form-Urlencoded" DEFAULT_POST_ENCTYPE = 0
   /\ setup_client_block r = OK
   /\ client_block r = Some "csrfp_token=old&x=1&&csrfp_token=new"
   /\ nul_free "csrfp_token=old&x=1&&csrfp_token=new"
   /\ plain "new" = true)
  /\ exists tbl, read_post r = Ok (Some tbl) /\ apr_table_get tbl CSRFP_TOKEN = Some "new".
Proof.
  split; [repeat split; reflexivity|].
  apply (X4_read_post_last_token_wins _ "Application/X-WWW-Form-Urlencoded"
           "csrfp_token=old&x=1&&csrfp_token=new" "new"); try reflexivity.
  right. now exists "csrfp_token=old&x=1&".
Defined.

(** X5. POST validation of a form body whose last csrfp_token field is
    [t], when the cookie scanner returns [c] and no stray byte follows the
    block in the pool: the result is 1 if [t] and [c] are the same string
    and 0 if they are not. *)
Theorem X5_validatePOSTtoken_compares_last_field_with_cookie
    (r : request_rec) (ct body t c : string) :
  method_number r = M_POST ->
  apr_table_get (headers_in r) "Content-Type" = Some ct ->
  strcasecmp ct DEFAULT_POST_ENCTYPE = 0 ->
  setup_client_block r = OK ->
  client_block r = Some body ->
  nul_free body ->
  plain t = true ->
  (body = CSRFP_TOKEN ++ String "=" t
   \/ exists other, body = other ++ String "&" (CSRFP_TOKEN ++ String "=" t)) ->
  getCookieToken r = Ok (Some c) ->
  nul_free c ->
  pool_residue r = EmptyString ->
  validatePOSTtoken r = Ok (if String.eqb t c then 1 else 0).
Proof. intros. eapply validatePOSTtoken_of_form; eassumption. Qed.

Lemma X5_witness :
  let r := incoming "POST" M_POST None
             [form_urlencoded; ("Cookie", "sid=9; csrfp_token=Qw3rT")]
             (Some "name=bob&csrfp_token=Qw3rT") in
  (method_number r = M_POST
   /\ apr_table_get (headers_in r) "Content-Type" = Some DEFAULT_POST_ENCTYPE
   /\ strcasecmp DEFAULT_POST_ENCTYPE DEFAULT_POST_ENCTYPE = 0
   /\ setup_client_block r = OK
   /\ client_block r = Some "name=bob&csrfp_token=Qw3rT"
   /\ nul_free "name=bob&csrfp_token=Qw3rT"
   /\ plain "Qw3rT" = true
   /\ getCookieToken r = Ok (Some "Qw3rT")
   /\ nul_free "Qw3rT"
   /\ pool_residue r = EmptyString)
  /\ validatePOSTtoken r = Ok (if String.eqb "Qw3rT" "Qw3rT" then 1 else 0).
Proof.
  split; [repeat split; reflexivity|].
  apply (X5_validatePOSTtoken_compares_last_field_with_cookie _ DEFAULT_POST_ENCTYPE
           "name=bob&csrfp_token=Qw3rT" "Qw3rT" "Qw3rT"); try reflexivity.
  right. now exists "name=bob".
Defined.

(* ================================================================== *)
(** ** What the query parser puts in the table *)
(* ================================================================== *)

Section QueryParsing.




End QueryParsing.



(* ================================================================== *)
(** ** The header parser, request by request *)
(* ================================================================== *)

Section HeaderParser.

Variable conf : csrfp_config.
Variable r : request_rec.
Hypothesis enabled : flag conf <> 0.

Lemma validatePOSTtoken_filter_frame :
  validatePOSTtoken (ap_add_output_filter "csrfp_out_filter" r) = validatePOSTtoken r.
Proof. reflexivity. Qed.


Lemma csrfp_header_parser_post (v : Z) :
  method r = "POST" ->
  validatePOSTtoken r = Ok v ->
  csrfp_header_parser conf r
  = if (v =? 0)%Z
    then Ok (failedValidationAction conf (ap_add_output_filter "csrfp_out_filter" r))
    else Ok (OK, mark_for_regeneration (ap_add_output_filter "csrfp_out_filter" r)).
Proof.
  intros Hm Hv. unfold csrfp_header_parser.
  destruct (Z.eqb_spec (flag conf) 0); [contradiction|].
  cbn [method ap_add_output_filter]. rewrite Hm.
  change (strcmp "POST" "POST" =? 0)%Z with true. cbv iota.
  rewrite validatePOSTtoken_filter_frame, Hv. cbn [bind].
  destruct (v =? 0)%Z; reflexivity.
Qed.

Lemma csrfp_header_parser_post_fault (f : fault) :
  method r = "POST" ->
  validatePOSTtoken r = Fault f ->
  csrfp_header_parser conf r = Fault f.
Proof.
  intros Hm Hv. unfold csrfp_header_parser.
  destruct (Z.eqb_spec (flag conf) 0); [contradiction|].
  cbn [method ap_add_output_filter]. rewrite Hm.
  change (strcmp "POST" "POST" =? 0)%Z with true. cbv iota.
  now rewrite validatePOSTtoken_filter_frame, Hv.
Qed.

Lemma csrfp_header_parser_not_post :
  strcmp (method r) "POST" <> 0 ->
  csrfp_header_parser conf r
  = Ok (OK, mark_for_regeneration (ap_add_output_filter "csrfp_out_filter" r)).
Proof.
  intros Hm. unfold csrfp_header_parser.
  destruct (Z.eqb_spec (flag conf) 0); [contradiction|].
  cbn [method ap_add_output_filter].
  destruct (Z.eqb_spec (strcmp (method r) "POST") 0); [contradiction|].
  cbn [bind]. now destruct (strcmp (method r) "GET" =? 0)%Z.
Qed.


Lemma serve_after_refusal (rc : Z) (r' : request_rec) (content : apr_bucket_brigade) :
  csrfp_header_parser conf r = Ok (rc, r') ->
  rc <> OK ->
  serve conf r content = Ok {| status := rc; req := r'; body := [] |}.
Proof.
  intros Hhp Hrc. unfold serve. rewrite Hhp. cbn [bind].
  now destruct (Z.eqb_spec rc OK).
Qed.

End HeaderParser.

(** X7. Only POST is ever validated: with the module enabled, a request
    of any other method (GET, PUT, DELETE, ...) gets [OK] from the header
    parser, the output filter, the [regenToken] mark and the X-Protected-By
    header, whatever its cookie and its parameters. *)
Theorem X7_only_post_is_validated (conf : csrfp_config) (r : request_rec) :
  flag conf <> 0 ->
  strcmp (method r) "POST" <> 0 ->
  csrfp_header_parser conf r
  = Ok (OK, mark_for_regeneration (ap_add_output_filter "csrfp_out_filter" r)).
Proof. intros Hf Hm. now apply csrfp_header_parser_not_post. Qed.

Lemma X7_witness :
  let r := incoming "PUT" 1 (Some "id=7&csrfp_token=forged")
             [("Cookie", "csrfp_token=real")] None in
  (flag csrfp_srv_config_create <> 0 /\ strcmp (method r) "POST" <> 0)
  /\ csrfp_header_parser csrfp_srv_config_create r
     = Ok (OK, mark_for_regeneration (ap_add_output_filter "csrfp_out_filter" r)).
Proof.
  split; [split; discriminate|].
  apply (X7_only_post_is_validated csrfp_srv_config_create
           (incoming "PUT" 1 (Some "id=7&csrfp_token=forged")
                     [("Cookie", "csrfp_token=real")] None)); discriminate.
Defined.

(** X8. A POST that is not a plain form ends the header parser in a NULL
    dereference.  When the Content-Type header is missing, [read_post]
    hands NULL to [strcasecmp]; when it is anything but
    application/x-www-form-urlencoded compared without case (a charset
    parameter after it is enough), [read_post] returns NULL and
    [validatePOSTtoken] looks the token up in that NULL table. *)
Theorem X8_post_of_another_type_faults (conf : csrfp_config) (r : request_rec) :
  flag conf <> 0 ->
  method r = "POST" ->
  method_number r = M_POST ->
  (apr_table_get (headers_in r) "Content-Type" = None
   \/ exists ct, apr_table_get (headers_in r) "Content-Type" = Some ct
                 /\ strcasecmp ct DEFAULT_POST_ENCTYPE <> 0) ->
  csrfp_header_parser conf r = Fault NullDeref.
Proof.
  intros Hf Hm Hn Hct. apply csrfp_header_parser_post_fault; auto.
  unfold validatePOSTtoken, read_post. rewrite Hn.
  cbn [Z.eqb negb M_POST Pos.eqb].
  destruct Hct as [->|(ct & -> & Hne)]; [reflexivity|].
  now destruct (Z.eqb_spec (strcasecmp ct DEFAULT_POST_ENCTYPE) 0).
Qed.

Lemma X8_witness :
  let r := incoming "POST" M_POST None
             [("Content-Type", "application/x-www-form-urlencoded; charset=UTF-8");
              ("Cookie", "csrfp_token=abc")]
             (Some "csrfp_token=abc") in
  (flag csrfp_srv_config_create <> 0 /\ method r = "POST" /\ method_number r = M_POST
   /\ strcasecmp "application/x-www-form-urlencoded; charset=UTF-8"
                 DEFAULT_POST_ENCTYPE <> 0)
  /\ csrfp_header_parser csrfp_srv_config_create r = Fault NullDeref.
Proof.
  split; [repeat split; (reflexivity || discriminate)|].
  apply X8_post_of_another_type_faults; try reflexivity; try discriminate.
  right. exists "application/x-www-form-urlencoded; charset=UTF-8".
  split; [reflexivity | discriminate].
Defined.


(* ================================================================== *)
(** ** A POST from validation to response *)
(* ================================================================== *)



(** X11. Every action but strip refuses a failed POST: the header
    parser returns 403, [DONE] or 500, never [OK], and the request record
    it returns has neither the [regenToken] mark nor the X-Protected-By
    header: its environment and its response headers are those it came
    with. *)
Theorem X11_failed_post_is_refused_unless_strip
    (conf : csrfp_config) (r : request_rec) :
  flag conf <> 0 ->
  action conf <> CSRFP_ACTION_STRIP ->
  method r = "POST" ->
  validatePOSTtoken r = Ok 0 ->
  exists rc r',
    csrfp_header_parser conf r = Ok (rc, r')
    /\ (rc = HTTP_FORBIDDEN \/ rc = DONE \/ rc = HTTP_INTERNAL_SERVER_ERROR)
    /\ rc <> OK
    /\ subprocess_env r' = subprocess_env r
    /\ headers_out r' = headers_out r.
Proof.
  intros Hf Ha Hm Hv.
  pose proof (csrfp_header_parser_post conf r Hf 0 Hm Hv) as Hhp.
  cbn [Z.eqb] in Hhp.
  set (r1 := ap_add_output_filter "csrfp_out_filter" r) in *.
  destruct (failedValidationAction conf r1) as [rc r'] eqn:Hact.
  assert (Hcases :
            (rc = HTTP_FORBIDDEN \/ rc = DONE \/ rc = HTTP_INTERNAL_SERVER_ERROR)
            /\ subprocess_env r' = subprocess_env r
            /\ headers_out r' = headers_out r).
  { unfold failedValidationAction in Hact.
    destruct (Z.eqb_spec (action conf) CSRFP_ACTION_STRIP); [contradiction|].
    repeat match type of Hact with
           | context [(?a =? ?b)%Z] => destruct (a =? b)%Z
           end; injection Hact as <- <-; auto 6. }
  destruct Hcases as (Hrc & Henv & Hout).
  exists rc, r'. repeat split; auto.
  destruct Hrc as [->|[->| ->]]; discriminate.
Qed.

Lemma X11_witness :
  let conf := csrfp_srv_config_create in
  let r := incoming "POST" M_POST None
             [form_urlencoded; ("Cookie", "csrfp_token=real")]
             (Some "amount=100&csrfp_token=forged") in
  (flag conf <> 0 /\ action conf <> CSRFP_ACTION_STRIP /\ method r = "POST"
   /\ validatePOSTtoken r = Ok 0)
  /\ exists rc r',
       csrfp_header_parser conf r = Ok (rc, r')
       /\ (rc = HTTP_FORBIDDEN \/ rc = DONE \/ rc = HTTP_INTERNAL_SERVER_ERROR)
       /\ rc <> OK
       /\ subprocess_env r' = subprocess_env r
       /\ headers_out r' = headers_out r.
Proof.
  split; [repeat split; (reflexivity || discriminate)|].
  apply X11_failed_post_is_refused_unless_strip; (reflexivity || discriminate).
Defined.



(* ================================================================== *)
(** ** What the hooks leave alone *)
(* ================================================================== *)

(** X13. The header parser never changes the request line and the
    request headers: whatever it returns, the method, the query string and
    the headers of the request record are those it was given. *)
Theorem X13_header_parser_keeps_the_request
    (conf : csrfp_config) (r r' : request_rec) (rc : Z) :
  csrfp_header_parser conf r = Ok (rc, r') ->
  method r' = method r /\ method_number r' = method_number r
  /\ args r' = args r /\ headers_in r' = headers_in r.
Proof.
  unfold csrfp_header_parser.
  destruct (flag conf =? 0)%Z; [intros [= _ <-]; auto 6|].
  destruct (strcmp _ "POST" =? 0)%Z.
  - destruct (validatePOSTtoken _) as [v|f]; cbn [bind]; [|discriminate].
    destruct (v =? 0)%Z.
    + unfold failedValidationAction.
      repeat match goal with
             | |- context [(?a =? ?b)%Z] => destruct (a =? b)%Z
             end; intros [= _ <-]; auto 6.
    + destruct (strcmp _ "GET" =? 0)%Z; intros [= _ <-]; auto 6.
  - cbn [bind]. destruct (strcmp _ "GET" =? 0)%Z; intros [= _ <-]; auto 6.
Qed.

Lemma X13_witness :
  let conf := snd (csrfp_action_cmd csrfp_srv_config_create "message") in
  let r := incoming "POST" M_POST (Some "page=2")
             [form_urlencoded; ("Cookie", "csrfp_token=real")]
             (Some "csrfp_token=forged") in
  let r' := ap_rputs ("<h2>" ++ DEFAULT_ERROR_MESSAGE ++ "</h2>")
              (ap_add_output_filter "csrfp_out_filter" r) in
  csrfp_header_parser conf r = Ok (DONE, r')
  /\ method r' = method r /\ method_number r' = method_number r
  /\ args r' = args r /\ headers_in r' = headers_in r.
Proof.
  split; [reflexivity|].
  apply (X13_header_parser_keeps_the_request
           (snd (csrfp_action_cmd csrfp_srv_config_create "message"))
           (incoming "POST" M_POST (Some "page=2")
                     [form_urlencoded; ("Cookie", "csrfp_token=real")]
                     (Some "csrfp_token=forged"))
           _ DONE).
  reflexivity.
Defined.

(** X14. Of the eight settings only three reach a request: two
    configurations with the same [flag], [action] and [errorCustomMessage],
    the message shorter than its 200-byte block (so that the block holds
    its terminator), answer every request alike, whatever their
    [errorRedirectionUri], [jsFilePath], [tokenLength], [disablesJsMessage]
    and [verifyGetFor]. *)
Theorem X14_five_settings_are_never_read
    (conf conf' : csrfp_config) (r : request_rec) (content : apr_bucket_brigade) :
  flag conf = flag conf' ->
  action conf = action conf' ->
  errorCustomMessage conf = errorCustomMessage conf' ->
  (forall m, errorCustomMessage conf = Some m ->
             (String.length m < CSRFP_ERROR_MESSAGE_MAXLENGTH)%nat) ->
  serve conf r content = serve conf' r content.
Proof.
  intros Hf Ha Hm _.
  unfold serve, csrfp_header_parser, failedValidationAction.
  now rewrite Hf, Ha, Hm.
Qed.

Lemma X14_witness :
  let conf := csrfp_srv_config_create in
  let conf' := set_verifyGetFor
                 (set_tokenLength
                    (set_jsFilePath
                       (set_disablesJsMessage
                          (set_errorRedirectionUri conf (Some "http://x/err"))
                          "enable scripts")
                       "http://x/j.js")
                    32)
                 (Some {| re_source := ".*" |}) in
  let r := incoming "POST" M_POST None
             [form_urlencoded; ("Cookie", "csrfp_token=real")]
             (Some "csrfp_token=real") in
  (flag conf = flag conf' /\ action conf = action conf'
   /\ errorCustomMessage conf = errorCustomMessage conf'
   /\ (forall m, errorCustomMessage conf = Some m ->
                 (String.length m < CSRFP_ERROR_MESSAGE_MAXLENGTH)%nat))
  /\ serve conf r ["<html><body>hi</body></html>"]
     = serve conf' r ["<html><body>hi</body></html>"].
Proof.
  assert (Hshort : forall m, errorCustomMessage csrfp_srv_config_create = Some m ->
                             (String.length m < CSRFP_ERROR_MESSAGE_MAXLENGTH)%nat).
  { intros m [= <-]. vm_compute. repeat constructor. }
  split; [repeat split; first [reflexivity | exact Hshort]|].
  apply X14_five_settings_are_never_read; first [reflexivity | exact Hshort].
Defined.

(** X15. Default deny: a [csrfpAction] argument that is none of strip,
    redirect, message and internal_server_error (compared without case)
    makes a failed validation end in 403, with the request record
    untouched. *)
Theorem X15_unrecognised_action_is_forbidden
    (config : csrfp_config) (arg : string) (r : request_rec) :
  strcasecmp arg "strip" <> 0 ->
  strcasecmp arg "redirect" <> 0 ->
  strcasecmp arg "message" <> 0 ->
  strcasecmp arg "internal_server_error" <> 0 ->
  failedValidationAction (snd (csrfp_action_cmd config arg)) r = (HTTP_FORBIDDEN, r).
Proof.
  intros Hs Hr Hm Hi. unfold csrfp_action_cmd.
  destruct (strcasecmp arg "forbidden" =? 0)%Z; [reflexivity|].
  destruct (Z.eqb_spec (strcasecmp arg "strip") 0); [contradiction|].
  destruct (Z.eqb_spec (strcasecmp arg "redirect") 0); [contradiction|].
  destruct (Z.eqb_spec (strcasecmp arg "message") 0); [contradiction|].
  destruct (Z.eqb_spec (strcasecmp arg "internal_server_error") 0); [contradiction|].
  reflexivity.
Qed.

Lemma X15_witness :
  let r := incoming "POST" M_POST None [form_urlencoded] (Some "x=1") in
  (strcasecmp "deny" "strip" <> 0 /\ strcasecmp "deny" "redirect" <> 0
   /\ strcasecmp "deny" "message" <> 0
   /\ strcasecmp "deny" "internal_server_error" <> 0)
  /\ failedValidationAction (snd (csrfp_action_cmd csrfp_srv_config_create "deny")) r
     = (HTTP_FORBIDDEN, r).
Proof.
  split; [repeat split; discriminate|].
  apply X15_unrecognised_action_is_forbidden; discriminate.
Defined.

(* ================================================================== *)
(** ** The bytes of a token *)
(* ================================================================== *)

Section TokenBytes.

Lemma below_123 (P : N -> bool) (m : N) :
  forallb P (map N.of_nat (seq 0 123)) = true -> (m < 123)%N -> P m = true.
Proof.
  intros Hall Hm. rewrite forallb_forall in Hall. apply Hall.
  rewrite <- (N2Nat.id m). apply in_map, in_seq. lia.
Qed.

Lemma rand_mod_below (x : N) : (x mod 123 < 123)%N.
Proof. apply N.mod_lt. discriminate. Qed.

Lemma generateToken_loop_from_set (rand : nat -> N) (n : nat) :
  forall i : nat,
    (forall j, (i <= j < i + n)%nat -> off_the_set (rand j) = false) ->
    exists tok, generateToken_loop rand n i = Ok tok
                /\ String.length tok = n
                /\ from_stringset tok = true /\ all_alnum tok = true.
Proof.
  induction n as [|n IH]; intros i Hon.
  - exists EmptyString. now repeat split.
  - cbn [generateToken_loop]. rewrite loop_body_stored_for.
    assert (Hst : stores_from_set (rand i mod 123) = true)
      by (apply below_123; [vm_compute; reflexivity | apply rand_mod_below]).
    unfold stores_from_set in Hst.
    specialize (Hon i ltac:(lia)) as Hi. unfold off_the_set in Hi.
    cbv zeta in Hi. rewrite Hi in Hst. cbn [orb] in Hst.
    destruct (stored_for (rand i mod 123)) as [c|]; [|discriminate].
    apply andb_prop in Hst as [Hset Hal].
    destruct (IH (S i)) as (tok & Htok & Hlen & Hfs & Han).
    { intros j Hj. apply Hon. lia. }
    exists (String c tok). cbn [bind]. rewrite Htok. cbn [bind].
    cbn [String.length from_stringset all_alnum].
    now rewrite Hlen, Hset, Hal, Hfs, Han.
Qed.

Lemma atoi_empty : atoi "" = 0.
Proof. reflexivity. Qed.

End TokenBytes.

(** X16. As long as [rand()] modulo 123 is none of 59, 60, 121 and 122
    during the [length] turns of the loop, [generateToken] returns a block
    of exactly [length] bytes, each of them one of the 60 bytes of
    [stringset], hence alphanumeric. *)
Theorem X16_generateToken_within_the_set (rand : nat -> N) (length : Z) :
  0 <= length ->
  (forall j, (j < Z.to_nat length)%nat -> off_the_set (rand j) = false) ->
  exists tok, generateToken rand length = Ok tok
              /\ strlen tok = length
              /\ from_stringset tok = true /\ all_alnum tok = true.
Proof.
  intros Hlen Hon. unfold generateToken.
  destruct (Z.ltb_spec length 0); [lia|].
  destruct (generateToken_loop_from_set rand (Z.to_nat length) 0)
    as (tok & Htok & Hl & Hfs & Hal).
  { intros j Hj. apply Hon. lia. }
  exists tok. repeat split; try assumption. unfold strlen. rewrite Hl. lia.
Qed.

Lemma X16_witness :
  (0 <= 15
   /\ forall j, (j < Z.to_nat 15)%nat -> off_the_set ((fun _ => 61%N) j) = false)
  /\ exists tok, generateToken (fun _ => 61%N) 15 = Ok tok
                 /\ strlen tok = 15
                 /\ from_stringset tok = true /\ all_alnum tok = true.
Proof.
  split; [split; [discriminate | intros j _; reflexivity]|].
  apply (X16_generateToken_within_the_set (fun _ => 61%N) 15).
  - discriminate.
  - intros j _. reflexivity.
Defined.

Lemma generateToken_loop_set_or_nul (rand : nat -> N) (n : nat) :
  forall i : nat,
    (forall j, (i <= j < i + n)%nat -> past_the_set (rand j) = false) ->
    exists tok, generateToken_loop rand n i = Ok tok
                /\ String.length tok = n /\ from_stringset_or_nul tok = true.
Proof.
  induction n as [|n IH]; intros i Hin.
  - exists EmptyString. now repeat split.
  - cbn [generateToken_loop]. rewrite loop_body_stored_for.
    assert (Hst : stores_set_or_nul_within (rand i mod 123) = true)
      by (apply below_123; [vm_compute; reflexivity | apply rand_mod_below]).
    unfold stores_set_or_nul_within in Hst.
    specialize (Hin i ltac:(lia)) as Hi. unfold past_the_set in Hi.
    cbv zeta in Hi. rewrite Hi in Hst. cbn [orb] in Hst.
    destruct (stored_for (rand i mod 123)) as [c|]; [|discriminate].
    destruct (IH (S i)) as (tok & Htok & Hlen & Hbytes).
    { intros j Hj. apply Hin. lia. }
    exists (String c tok). cbn [bind]. rewrite Htok. cbn [bind].
    cbn [String.length from_stringset_or_nul]. now rewrite Hlen, Hst, Hbytes.
Qed.

(** X17. As long as [rand()] modulo 123 is neither 60 nor 122 during the
    [length] turns of the loop (the two values that index [stringset] past
    its terminator), [generateToken] returns a block of exactly [length]
    bytes, each of them a byte of [stringset] or the NUL that ends the
    literal: ['U'] and ['V'] never occur. *)
Theorem X17_generateToken_block (rand : nat -> N) (length : Z) :
  0 <= length ->
  (forall j, (j < Z.to_nat length)%nat -> past_the_set (rand j) = false) ->
  exists tok, generateToken rand length = Ok tok
              /\ strlen tok = length /\ from_stringset_or_nul tok = true.
Proof.
  intros Hlen Hin. unfold generateToken.
  destruct (Z.ltb_spec length 0); [lia|].
  destruct (generateToken_loop_set_or_nul rand (Z.to_nat length) 0)
    as (tok & Htok & Hl & Hbytes).
  { intros j Hj. apply Hin. lia. }
  exists tok. repeat split; try assumption. unfold strlen. rewrite Hl. lia.
Qed.

Lemma X17_witness :
  (0 <= 3
   /\ forall j, (j < Z.to_nat 3)%nat -> past_the_set ((fun _ => 59%N) j) = false)
  /\ exists tok, generateToken (fun _ => 59%N) 3 = Ok tok
                 /\ strlen tok = 3 /\ from_stringset_or_nul tok = true.
Proof.
  split; [split; [discriminate | intros j _; reflexivity]|].
  apply (X17_generateToken_block (fun _ => 59%N) 3).
  - discriminate.
  - intros j _. reflexivity.
Defined.

(** X18. A negative token length goes through the directive and stops
    the generator: [tokenLength] stores any length that [atoi] reads as
    negative, and [generateToken] with the length then configured asks
    [apr_pcalloc] for the size of a negative [int]. *)
Theorem X18_negative_token_length_is_kept
    (config : csrfp_config) (arg : string) (rand : nat -> N) :
  atoi arg < 0 ->
  tokenLength (snd (csrfp_tokenLength_cmd config arg)) = atoi arg
  /\ generateToken rand (tokenLength (snd (csrfp_tokenLength_cmd config arg)))
     = Fault AllocFailure.
Proof.
  intros Hneg.
  assert (Hlen : tokenLength (snd (csrfp_tokenLength_cmd config arg)) = atoi arg).
  { unfold csrfp_tokenLength_cmd. destruct arg as [|c arg].
    - rewrite atoi_empty in Hneg. lia.
    - unfold strlen. cbn [String.length].
      destruct (Z.gtb_spec (Z.of_nat (S (String.length arg))) 0); [|lia].
      destruct (Z.eqb_spec (atoi (String c arg)) 0); [lia|]. reflexivity. }
  split; [exact Hlen|]. rewrite Hlen. now apply generateToken_negative_length.
Qed.

Lemma X18_witness :
  atoi " -12" < 0
  /\ tokenLength (snd (csrfp_tokenLength_cmd csrfp_srv_config_create " -12"))
     = atoi " -12"
  /\ generateToken (fun _ => 0%N)
       (tokenLength (snd (csrfp_tokenLength_cmd csrfp_srv_config_create " -12")))
     = Fault AllocFailure.
Proof.
  split; [reflexivity|].
  apply (X18_negative_token_length_is_kept csrfp_srv_config_create " -12" (fun _ => 0%N)).
  reflexivity.
Defined.

(* ================================================================== *)
(** ** The directive handlers *)
(* ================================================================== *)

Section Directives.

Lemma strlen_positive (arg : string) : arg <> EmptyString -> (strlen arg >? 0)%Z = true.
Proof.
  intros Hne. destruct arg; [contradiction|].
  unfold strlen. cbn [String.length]. apply Z.gtb_lt. lia.
Qed.

Lemma strncpy_prefix (s : string) :
  forall n : nat, String.prefix (strncpy s n) s = true.
Proof.
  induction s as [|c s IH]; intros [|n]; cbn [strncpy String.prefix]; try reflexivity.
  destruct (ascii_dec c c); [apply IH | contradiction].
Qed.

Lemma strncpy_length (s : string) :
  forall n : nat, String.length (strncpy s n) = Nat.min (String.length s) n.
Proof.
  induction s as [|c s IH]; intros [|n]; cbn [strncpy String.length Nat.min];
    try reflexivity.
  now rewrite IH.
Qed.

Lemma strncpy_short (s : string) :
  forall n : nat, (String.length s <= n)%nat -> strncpy s n = s.
Proof.
  induction s as [|c s IH]; intros [|n] Hlen; cbn [strncpy]; try reflexivity.
  - simpl in Hlen. lia.
  - rewrite IH; [reflexivity | simpl in Hlen; lia].
Qed.

Lemma tolower_NUL (c : ascii) : tolower c = NUL -> c = NUL.
Proof.
  destruct c as [[] [] [] [] [] [] [] []]; vm_compute; intros H;
    first [reflexivity | discriminate H].
Qed.

Lemma strcasecmp_zero_lower (a b : string) :
  nul_free a -> nul_free b -> strcasecmp a b = 0 -> lower a = lower b.
Proof.
  revert b. induction a as [|x a IH]; intros [|y b] Ha Hb H; cbn [strcasecmp] in H.
  - reflexivity.
  - apply nul_free_cons in Hb as [Hy _]. exfalso. apply Hy, tolower_NUL, code_NUL. lia.
  - apply nul_free_cons in Ha as [Hx _]. exfalso. now apply Hx, tolower_NUL, code_NUL.
  - apply nul_free_cons in Ha as [_ Ha]. apply nul_free_cons in Hb as [_ Hb].
    cbn [lower]. destruct (Ascii.eqb_spec (tolower x) (tolower y)) as [->|Hxy].
    + f_equal. now apply IH.
    + exfalso. apply Hxy, code_inj. lia.
Qed.

Lemma lower_strcasecmp_zero (a b : string) :
  lower a = lower b -> strcasecmp a b = 0.
Proof.
  revert b. induction a as [|x a IH]; intros [|y b] H; cbn [lower] in H;
    try discriminate; cbn [strcasecmp]; [reflexivity|].
  injection H as Hc Ht. rewrite Hc, Ascii.eqb_refl. now apply IH.
Qed.

End Directives.

(** X19. [errorRedirectionUri] and [errorCustomMessage] cannot be set
    again once they were emptied: an empty argument makes the pointer NULL,
    and the next non-empty argument is copied into that NULL pointer. *)
Theorem X19_emptied_setting_cannot_be_set_again (config : csrfp_config) (arg : string) :
  arg <> EmptyString ->
  (c <- csrfp_errorRedirectionUri_cmd config "" ;;
   csrfp_errorRedirectionUri_cmd (snd c) arg) = Fault NullDeref
  /\ (c <- csrfp_errorCustomMessage_cmd config "" ;;
      csrfp_errorCustomMessage_cmd (snd c) arg) = Fault NullDeref.
Proof.
  intros Hne.
  unfold csrfp_errorRedirectionUri_cmd, csrfp_errorCustomMessage_cmd.
  change (strlen "" >? 0)%Z with false. cbn [bind snd].
  rewrite (strlen_positive arg Hne). now split.
Qed.

Lemma X19_witness :
  "http://x/err" <> EmptyString
  /\ (c <- csrfp_errorRedirectionUri_cmd csrfp_srv_config_create "" ;;
      csrfp_errorRedirectionUri_cmd (snd c) "http://x/err") = Fault NullDeref
  /\ (c <- csrfp_errorCustomMessage_cmd csrfp_srv_config_create "" ;;
      csrfp_errorCustomMessage_cmd (snd c) "http://x/err") = Fault NullDeref.
Proof.
  split; [discriminate|].
  apply (X19_emptied_setting_cannot_be_set_again csrfp_srv_config_create "http://x/err").
  discriminate.
Defined.

(** X20. [jsFilePath] and [disablesJsMessage] keep the first 200 and 400
    bytes of a non-empty argument: the value stored is a prefix of the
    argument, of the argument's length or the limit, whichever is less; so
    an argument shorter than the limit is stored whole.  No error is
    reported. *)
Theorem X20_path_and_message_are_cut_at_the_limit
    (config : csrfp_config) (arg : string) :
  arg <> EmptyString ->
  (fst (csrfp_jsFilePath_cmd config arg) = None
   /\ String.prefix (jsFilePath (snd (csrfp_jsFilePath_cmd config arg))) arg = true
   /\ String.length (jsFilePath (snd (csrfp_jsFilePath_cmd config arg)))
      = Nat.min (String.length arg) 200)
  /\ (fst (csrfp_disablesJsMessage_cmd config arg) = None
      /\ String.prefix
           (disablesJsMessage (snd (csrfp_disablesJsMessage_cmd config arg))) arg = true
      /\ String.length
           (disablesJsMessage (snd (csrfp_disablesJsMessage_cmd config arg)))
         = Nat.min (String.length arg) 400).
Proof.
  intros Hne. unfold csrfp_jsFilePath_cmd, csrfp_disablesJsMessage_cmd.
  rewrite (strlen_positive arg Hne).
  cbn [fst snd set_jsFilePath set_disablesJsMessage jsFilePath disablesJsMessage].
  repeat split; first [apply strncpy_prefix | apply strncpy_length].
Qed.

Lemma X20_witness :
  "http://x/j.js" <> EmptyString
  /\ (fst (csrfp_jsFilePath_cmd csrfp_srv_config_create "http://x/j.js") = None
      /\ String.prefix
           (jsFilePath (snd (csrfp_jsFilePath_cmd csrfp_srv_config_create "http://x/j.js")))
           "http://x/j.js" = true
      /\ String.length
           (jsFilePath (snd (csrfp_jsFilePath_cmd csrfp_srv_config_create "http://x/j.js")))
         = Nat.min (String.length "http://x/j.js") 200)
  /\ (fst (csrfp_disablesJsMessage_cmd csrfp_srv_config_create "http://x/j.js") = None
      /\ String.prefix
           (disablesJsMessage
              (snd (csrfp_disablesJsMessage_cmd csrfp_srv_config_create "http://x/j.js")))
           "http://x/j.js" = true
      /\ String.length
           (disablesJsMessage
              (snd (csrfp_disablesJsMessage_cmd csrfp_srv_config_create "http://x/j.js")))
         = Nat.min (String.length "http://x/j.js") 400).
Proof.
  split; [discriminate|].
  apply (X20_path_and_message_are_cut_at_the_limit csrfp_srv_config_create "http://x/j.js").
  discriminate.
Defined.

(** X21. [csrfpEnable] switches the module off for the argument off,
    in any mix of cases, and on for every other argument ("false", "no"
    and "0" among them). *)
Theorem X21_only_off_disables (config : csrfp_config) (arg : string) :
  nul_free arg ->
  flag (snd (csrfp_enable_cmd config arg))
  = if String.eqb (lower arg) "off" then 0 else 1.
Proof.
  intros Harg. unfold csrfp_enable_cmd.
  destruct (String.eqb_spec (lower arg) "off") as [Hoff|Hoff].
  - rewrite (lower_strcasecmp_zero arg "off" Hoff). reflexivity.
  - destruct (Z.eqb_spec (strcasecmp arg "off") 0) as [Hz|Hz]; [|reflexivity].
    exfalso. apply Hoff. now apply (strcasecmp_zero_lower arg "off" Harg).
Qed.

Lemma X21_witness :
  nul_free "false"
  /\ flag (snd (csrfp_enable_cmd csrfp_srv_config_create "false"))
     = if String.eqb (lower "false") "off" then 0 else 1.
Proof.
  split; [reflexivity|].
  apply (X21_only_off_disables csrfp_srv_config_create "false"). reflexivity.
Defined.

(* ================================================================== *)
(** ** The response headers *)
(* ================================================================== *)

Section ResponseHeaders.

Variable key : string.
Hypothesis not_protected_by : key_eqb "X-Protected-By" key = false.
Hypothesis not_output_filter : key_eqb "output_filter" key = false.

Lemma csrfp_out_filter_header (r : request_rec) (bb : apr_bucket_brigade) :
  apr_table_get (headers_out (fst (csrfp_out_filter r bb))) key
  = apr_table_get (headers_out r) key.
Proof.
  unfold csrfp_out_filter. cbn [fst ap_rputs headers_out].
  destruct (apr_table_get _ "regenToken") as [v|];
    [destruct (strcasecmp v REGEN_TOKEN =? 0)%Z|];
    cbn [set_headers_out headers_out];
    now apply apr_table_get_addn_other.
Qed.

Lemma csrfp_header_parser_header (conf : csrfp_config) (r r' : request_rec) (rc : Z) :
  csrfp_header_parser conf r = Ok (rc, r') ->
  apr_table_get (headers_out r') key = apr_table_get (headers_out r) key
  /\ err_headers_out r' = err_headers_out r /\ content_type r' = content_type r.
Proof.
  assert (Hmark : forall r0,
             apr_table_get (headers_out (mark_for_regeneration r0)) key
             = apr_table_get (headers_out r0) key).
  { intros r0. unfold mark_for_regeneration.
    cbn [set_headers_out set_subprocess_env headers_out].
    now apply apr_table_get_addn_other. }
  unfold csrfp_header_parser.
  destruct (flag conf =? 0)%Z; [intros [= _ <-]; auto|].
  destruct (strcmp _ "POST" =? 0)%Z.
  - destruct (validatePOSTtoken _) as [v|f]; cbn [bind]; [|discriminate].
    destruct (v =? 0)%Z.
    + unfold failedValidationAction.
      repeat match goal with
             | |- context [(?a =? ?b)%Z] => destruct (a =? b)%Z
             end; intros [= _ <-]; auto.
    + destruct (strcmp _ "GET" =? 0)%Z; intros [= _ <-]; rewrite Hmark; auto.
  - cbn [bind]. destruct (strcmp _ "GET" =? 0)%Z; intros [= _ <-]; rewrite Hmark; auto.
Qed.

Lemma serve_header
    (conf : csrfp_config) (r : request_rec) (content : apr_bucket_brigade)
    (resp : response) :
  serve conf r content = Ok resp ->
  apr_table_get (headers_out (req resp)) key = apr_table_get (headers_out r) key
  /\ err_headers_out (req resp) = err_headers_out r
  /\ content_type (req resp) = content_type r.
Proof.
  unfold serve.
  destruct (csrfp_header_parser conf r) as [[rc r1]|f] eqn:Hhp; cbn [bind];
    [|discriminate].
  apply csrfp_header_parser_header in Hhp as (Hget & Herr & Hct).
  destruct (rc =? OK)%Z; [destruct (has_filter _ r1)|].
  - pose proof (csrfp_out_filter_header r1 content) as Hf.
    assert (Hrest : err_headers_out (fst (csrfp_out_filter r1 content)) = err_headers_out r1
                    /\ content_type (fst (csrfp_out_filter r1 content)) = content_type r1).
    { unfold csrfp_out_filter. cbn [fst].
      destruct (apr_table_get _ "regenToken") as [v|];
        [destruct (strcasecmp v REGEN_TOKEN =? 0)%Z|]; now split. }
    destruct (csrfp_out_filter r1 content) as [r2 bb].
    intros [= <-]. cbn [fst req] in *. destruct Hrest as [-> ->].
    repeat split; congruence.
  - intros [= <-]. now repeat split.
  - intros [= <-]. now repeat split.
Qed.

End ResponseHeaders.

(** X22. The two hooks add two response headers and touch no other:
    for every header name but X-Protected-By and output_filter (names
    compared without case), the response says what the request record said
    before. *)
Theorem X22_no_other_response_header_changes
    (key : string) (conf : csrfp_config) (r : request_rec)
    (content : apr_bucket_brigade) (resp : response) :
  key_eqb "X-Protected-By" key = false ->
  key_eqb "output_filter" key = false ->
  serve conf r content = Ok resp ->
  apr_table_get (headers_out (req resp)) key = apr_table_get (headers_out r) key.
Proof.
  intros Hp Ho Hs. exact (proj1 (serve_header key Hp Ho conf r content resp Hs)).
Qed.

Lemma X22_witness :
  let r := set_headers_out (incoming "GET" M_GET None [] None)
             [("Cache-Control", "no-store")] in
  let resp := {| status := OK;
                 req := fst (csrfp_out_filter
                               (mark_for_regeneration
                                  (ap_add_output_filter "csrfp_out_filter" r))
                               ["hi"]);
                 body := ["hi"] |} in
  (key_eqb "X-Protected-By" "cache-control" = false
   /\ key_eqb "output_filter" "cache-control" = false
   /\ serve csrfp_srv_config_create r ["hi"] = Ok resp)
  /\ apr_table_get (headers_out (req resp)) "cache-control"
     = apr_table_get (headers_out r) "cache-control".
Proof.
  split; [repeat split; reflexivity|].
  apply (X22_no_other_response_header_changes "cache-control" csrfp_srv_config_create
           (set_headers_out (incoming "GET" M_GET None [] None)
                            [("Cache-Control", "no-store")])
           ["hi"]); reflexivity.
Defined.

(** X23. The content type of the response, as [getOutputContentType]
    reads it (response headers, then error headers, then
    [r->content_type]), is the same after the two hooks as before. *)
Theorem X23_content_type_is_kept
    (conf : csrfp_config) (r : request_rec)
    (content : apr_bucket_brigade) (resp : response) :
  serve conf r content = Ok resp ->
  getOutputContentType (req resp) = getOutputContentType r.
Proof.
  intros Hs.
  destruct (serve_header "Content-Type" eq_refl eq_refl conf r content resp Hs)
    as (Hget & Herr & Hct).
  unfold getOutputContentType. now rewrite Hget, Herr, Hct.
Qed.

Lemma X23_witness :
  let r := set_headers_out (incoming "GET" M_GET None [] None)
             [("content-type", "text/html")] in
  let resp := {| status := OK;
                 req := fst (csrfp_out_filter
                               (mark_for_regeneration
                                  (ap_add_output_filter "csrfp_out_filter" r))
                               ["hi"]);
                 body := ["hi"] |} in
  serve csrfp_srv_config_create r ["hi"] = Ok resp
  /\ getOutputContentType (req resp) = getOutputContentType r.
Proof.
  split; [reflexivity|].
  apply (X23_content_type_is_kept csrfp_srv_config_create
           (set_headers_out (incoming "GET" M_GET None [] None)
                            [("content-type", "text/html")])
           ["hi"]).
  reflexivity.
Defined.

(** X24. A form POST whose body the server refuses to set up for reading
    ([ap_setup_client_block] does not return [OK], as for a chunked body
    under [REQUEST_CHUNKED_ERROR]): [util_read] passes the code on,
    [read_post] returns NULL for it, and the header parser ends in the
    lookup in that NULL table. *)
Theorem X24_unreadable_body_faults (conf : csrfp_config) (r : request_rec)
    (ct : string) :
  flag conf <> 0 ->
  method r = "POST" ->
  method_number r = M_POST ->
  apr_table_get (headers_in r) "Content-Type" = Some ct ->
  strcasecmp ct DEFAULT_POST_ENCTYPE = 0 ->
  setup_client_block r <> OK ->
  fst (util_read r) = setup_client_block r
  /\ read_post r = Ok None
  /\ csrfp_header_parser conf r = Fault NullDeref.
Proof.
  intros Hf Hm Hn Hct Hform Hrc.
  assert (Hu : util_read r = (setup_client_block r, None)).
  { unfold util_read. now destruct (Z.eqb_spec (setup_client_block r) OK). }
  assert (Hread : read_post r = Ok None).
  { unfold read_post. rewrite Hn, Hct, Hform, Hu.
    cbn [Z.eqb negb M_POST Pos.eqb].
    now destruct (Z.eqb_spec (setup_client_block r) OK). }
  split; [now rewrite Hu|]. split; [exact Hread|].
  apply csrfp_header_parser_post_fault; auto.
  unfold validatePOSTtoken. now rewrite Hread.
Qed.

Lemma X24_witness :
  let r := {| method := "POST"; method_number := M_POST; args := None;
              content_type := None;
              headers_in := [form_urlencoded; ("Transfer-Encoding", "chunked");
                             ("Cookie", "csrfp_token=abc")];
              headers_out := []; err_headers_out := []; subprocess_env := [];
              output_filters := []; setup_client_block := 411;
              client_block := Some "csrfp_token=abc";
              pool_residue := EmptyString; rprintf_out := EmptyString |} in
  (flag csrfp_srv_config_create <> 0 /\ method r = "POST" /\ method_number r = M_POST
   /\ apr_table_get (headers_in r) "Content-Type" = Some DEFAULT_POST_ENCTYPE
   /\ strcasecmp DEFAULT_POST_ENCTYPE DEFAULT_POST_ENCTYPE = 0
   /\ setup_client_block r <> OK)
  /\ fst (util_read r) = setup_client_block r
  /\ read_post r = Ok None
  /\ csrfp_header_parser csrfp_srv_config_create r = Fault NullDeref.
Proof.
  split; [repeat split; (reflexivity || discriminate)|].
  apply (X24_unreadable_body_faults csrfp_srv_config_create _ DEFAULT_POST_ENCTYPE);
    (reflexivity || discriminate).
Defined.
